(** * Composio toolkit service: a shallow embedding

    This development embeds
    [backend/composio_integration/toolkit_service.py] in Rocq and proves
    properties of [ToolkitService].

    The embedding follows the Python source line by line:
    - values that arrive from the Composio SDK are untyped; they are
      modelled by [pyval], a small universe of Python values (JSON-like
      data, plus the three kinds of attribute-bearing objects the code
      probes for);
    - statements that can raise are modelled in the error monad [result];
      a [try ... except Exception] block is a [catch];
    - the SDK client is a pair of functions ([ComposioClient]);
    - what the code takes from libraries outside the repository
      ([str.lower], [dict(...)] on something that is not a dict, pydantic's
      coercion of ill-typed field values) is an interface ([Runtime]) of
      which only the well-typed behaviour is fixed.

    Conventions of the model: a string is a sequence of characters, one
    [ascii] each; a client call is a function of its arguments, so that
    two calls with the same arguments get the same response; logging is
    left out. *)

From Stdlib Require Import String Ascii List ZArith Bool Lia.
Import ListNotations.
Local Open Scope string_scope.
Local Open Scope Z_scope.
Local Open Scope list_scope.

Set Implicit Arguments.
Local Set Warnings "-register-all".

(** ** Python values *)

(** A dict is an association list in insertion order, with string keys;
    a value that stands for a Python dict has distinct keys. *)

Inductive pyval : Type :=
| PNone
| PBool (b : bool)
| PInt (n : Z)
| PStr (s : string)
| PList (l : list pyval)
| PTuple (l : list pyval)
| PDict (d : list (string * pyval))
  (** an instance of a plain class: [__dict__] is [d] *)
| PObj (d : list (string * pyval))
  (** a namedtuple: no [__dict__], [_asdict()] is [d] *)
| PNamedTuple (d : list (string * pyval))
  (** a pydantic model: [__dict__] is [d], [model_dump()] returns [dump] *)
| PModel (dump : pyval) (d : list (string * pyval)).

Definition pydict := list (string * pyval).

(** ** Exceptions and the error monad *)

Inductive exn : Type :=
| AttributeError
| TypeError
| ValueError
| ValidationError
| ClientError (msg : string).

Inductive result (A : Type) : Type :=
| Ok (a : A)
| Raise (e : exn).

Arguments Ok {A} a.
Arguments Raise {A} e.

Definition bind {A B : Type} (m : result A) (k : A -> result B) : result B :=
  match m with
  | Ok a => k a
  | Raise e => Raise e
  end.

Notation "x <- m ;; k" := (bind m (fun x => k))
  (at level 61, m at next level, right associativity).

(** [try: body except Exception as e: handler(e)] *)
Definition catch {A : Type} (body : result A) (handler : exn -> result A) : result A :=
  match body with
  | Ok a => Ok a
  | Raise e => handler e
  end.

(** [for x in xs: s = body(s, x)], stopping at the first exception. *)
Fixpoint for_each {S A : Type} (body : S -> A -> result S) (xs : list A) (s : S)
  : result S :=
  match xs with
  | [] => Ok s
  | x :: xs' => s' <- body s x ;; for_each body xs' s'
  end.

(** One turn of a loop whose body either appends a value to the list it
    builds or [continue]s ([None]). *)
Definition collect_step {A B : Type} (f : A -> result (option B))
  (acc : list B) (x : A) : result (list B) :=
  r <- f x ;;
  Ok (match r with
      | Some b => acc ++ [b]
      | None => acc
      end).

(** The turns of such a loop that append. *)
Definition kept {A B : Type} (f : A -> result (option B)) (x : A) : bool :=
  match f x with
  | Ok (Some _) => true
  | _ => false
  end.

(** ** Python operations used by the service *)

Fixpoint lookup (k : string) (d : pydict) : option pyval :=
  match d with
  | [] => None
  | (k', v) :: d' => if String.eqb k k' then Some v else lookup k d'
  end.

(** [d.get(k, dflt)] on a dict. *)
Definition dict_get (d : pydict) (k : string) (dflt : pyval) : pyval :=
  match lookup k d with
  | Some v => v
  | None => dflt
  end.

(** [k in d] on a dict. *)
Definition dict_has (d : pydict) (k : string) : bool :=
  match lookup k d with
  | Some _ => true
  | None => false
  end.

(** [v.get(k, dflt)]: only dicts have a [get] method. *)
Definition py_get (v : pyval) (k : string) (dflt : pyval) : result pyval :=
  match v with
  | PDict d => Ok (dict_get d k dflt)
  | _ => Raise AttributeError
  end.

(** [v.__dict__ if hasattr(v, '__dict__') else v] *)
Definition unwrap (v : pyval) : pyval :=
  match v with
  | PObj d | PModel _ d => PDict d
  | _ => v
  end.

(** [getattr(v, k, dflt)], for attribute names that are not methods of
    the built-in types ([description], [logo], [categories], [name]). *)
Definition py_getattr (v : pyval) (k : string) (dflt : pyval) : pyval :=
  match v with
  | PObj d | PModel _ d | PNamedTuple d => dict_get d k dflt
  | _ => dflt
  end.

(** Truth value of [v] in a condition. *)
Definition truthy (v : pyval) : bool :=
  match v with
  | PNone => false
  | PBool b => b
  | PInt n => negb (n =? 0)
  | PStr s => negb (String.eqb s "")
  | PList l | PTuple l => negb (Nat.eqb (length l) 0)
  | PDict d | PNamedTuple d => negb (Nat.eqb (length d) 0)
  | PObj _ | PModel _ _ => true
  end.

(** [q in s] on strings: [q] occurs in [s] as a contiguous substring. *)
Fixpoint str_contains (q s : string) : bool :=
  String.prefix q s ||
  match s with
  | EmptyString => false
  | String _ s' => str_contains q s'
  end.

(** [PStr k == v] *)
Definition eq_str (k : string) (v : pyval) : bool :=
  match v with
  | PStr s => String.eqb k s
  | _ => false
  end.

(** [k in v] for a string [k]. *)
Definition py_contains (k : string) (v : pyval) : result bool :=
  match v with
  | PList l | PTuple l => Ok (existsb (eq_str k) l)
  | PNamedTuple d => Ok (existsb (eq_str k) (map snd d))
  | PStr s => Ok (str_contains k s)
  | PDict d => Ok (dict_has d k)
  | PModel _ _ => Ok false
  | PNone | PBool _ | PInt _ | PObj _ => Raise TypeError
  end.

Fixpoint chars (s : string) : list pyval :=
  match s with
  | EmptyString => []
  | String c s' => PStr (String c EmptyString) :: chars s'
  end.

(** The elements [for x in v] runs through. A dict yields its keys, a
    pydantic model its (field, value) pairs. *)
Definition py_iter (v : pyval) : result (list pyval) :=
  match v with
  | PList l | PTuple l => Ok l
  | PNamedTuple d => Ok (map snd d)
  | PStr s => Ok (chars s)
  | PDict d => Ok (map (fun kv => PStr (fst kv)) d)
  | PModel _ d => Ok (map (fun kv => PTuple [PStr (fst kv); snd kv]) d)
  | PNone | PBool _ | PInt _ | PObj _ => Raise TypeError
  end.

(** [v.items()] *)
Definition py_items (v : pyval) : result pydict :=
  match v with
  | PDict d => Ok d
  | _ => Raise AttributeError
  end.

(** [d[k] = v] on a dict. *)
Fixpoint dict_set {V : Type} (k : string) (v : V) (d : list (string * V))
  : list (string * V) :=
  match d with
  | [] => [(k, v)]
  | (k', v') :: d' =>
      if String.eqb k k' then (k, v) :: d' else (k', v') :: dict_set k v d'
  end.

(** [xs[:n]] *)
Definition slice_to {A : Type} (xs : list A) (n : Z) : list A :=
  if 0 <=? n then firstn (Z.to_nat n) xs
  else firstn (Z.to_nat (Z.of_nat (length xs) + n)) xs.

(** ** What the service takes from outside the repository *)

Class Runtime : Type := {
  (** [s.lower()] *)
  str_lower : string -> string;
  (** [dict(v)]; fixed on dicts, where it is a copy *)
  dict_of : pyval -> result pydict;
  dict_of_dict : forall d, dict_of (PDict d) = Ok d;
  (** pydantic validation of a field declared [str] *)
  as_str : pyval -> option string;
  as_str_str : forall s, as_str (PStr s) = Some s;
  (** ... declared [Optional[str]] *)
  as_opt_str : pyval -> option (option string);
  as_opt_str_none : as_opt_str PNone = Some None;
  as_opt_str_str : forall s, as_opt_str (PStr s) = Some (Some s);
  (** ... declared [List[str]] *)
  as_str_list : pyval -> option (list string);
  as_str_list_strs : forall l, as_str_list (PList (map PStr l)) = Some l;
  (** ... declared [bool] *)
  as_bool : pyval -> option bool;
  as_bool_bool : forall b, as_bool (PBool b) = Some b
}.

(** A model constructor raises [ValidationError] when a field is rejected. *)
Definition validated {A : Type} (o : option A) : result A :=
  match o with
  | Some a => Ok a
  | None => Raise ValidationError
  end.

(** ** The typed records of the module *)

Module CategoryInfo.
Record t : Type := make { id : string; name : string }.
End CategoryInfo.

Module ToolkitInfo.
Record t : Type := make {
  slug : string;
  name : string;
  description : option string;
  logo : option string;
  tags : list string;
  auth_schemes : list string;
  categories : list string
}.
End ToolkitInfo.

Module AuthConfigField.
Record t : Type := make {
  name : string;
  displayName : string;
  type : string;
  description : option string;
  required : bool;
  default : option string;
  legacy_template_name : option string
}.
End AuthConfigField.

Module AuthConfigDetails.
Record t : Type := make {
  name : string;
  mode : string;
  fields : list (string * list (string * list AuthConfigField.t))
}.
End AuthConfigDetails.

(** [categories] is assigned after construction, and pydantic does not
    validate assignments: the field holds whatever the response gave. *)
Module DetailedToolkitInfo.
Record t : Type := make {
  slug : string;
  name : string;
  description : option string;
  logo : option string;
  tags : list string;
  auth_schemes : list string;
  categories : list pyval;
  auth_config_details : list AuthConfigDetails.t;
  connected_account_initiation_fields :
    option (list (string * list AuthConfigField.t));
  base_url : option string
}.
End DetailedToolkitInfo.

(** The dict that [list_toolkits] and [search_toolkits] return, with its
    five fixed keys. The pagination values are passed through unchecked. *)
Record PagedResult : Type := {
  items : list ToolkitInfo.t;
  total_items : pyval;
  total_pages : pyval;
  current_page : pyval;
  next_cursor : pyval
}.

(** ** The client *)

(** The keyword arguments of [client.toolkits.list]; [None] is an absent
    key. *)
Record ListParams : Type := {
  limit : Z;
  managed_by : string;
  cursor : option string;
  category : option string
}.

Record ComposioClient : Type := {
  toolkits_list : ListParams -> result pyval;
  toolkits_retrieve : string -> result pyval
}.

Record ToolkitService : Type := { client : ComposioClient }.

(** [x if x else nothing] for an [Optional[str]] argument. *)
Definition if_set (x : option string) : option string :=
  match x with
  | Some s => if String.eqb s "" then None else Some s
  | None => None
  end.

Definition list_params (limit : Z) (cursor category : option string) : ListParams :=
  {| limit := limit;
     managed_by := "composio";
     cursor := if_set cursor;
     category := if_set category |}.

(** ** ToolkitService *)

Section Service.

Context {RT : Runtime}.
Variable self : ToolkitService.

(** *** list_categories *)

Definition popular_categories : list (string * string) :=
  [ ("popular", "Popular");
    ("productivity", "Productivity");
    ("crm", "CRM");
    ("marketing", "Marketing");
    ("analytics", "Analytics");
    ("communication", "Communication");
    ("project-management", "Project Management");
    ("scheduling", "Scheduling") ].

(** Line 75: a [CategoryInfo] built from one entry of the table. *)
Definition category_info (cat : string * string) : result CategoryInfo.t :=
  id <- validated (as_str (PStr (fst cat))) ;;
  name <- validated (as_str (PStr (snd cat))) ;;
  Ok (CategoryInfo.make id name).

Definition list_categories_body : result (list CategoryInfo.t) :=
  for_each (fun categories cat =>
              c <- category_info cat ;; Ok (categories ++ [c]))
           popular_categories [].

Definition list_categories : result (list CategoryInfo.t) :=
  catch list_categories_body (fun e => Raise e).

(** *** list_toolkits *)

(** Lines 107-112: the dict an item is read through. *)
Definition item_data (item : pyval) : pyval :=
  match item with
  | PObj d | PModel _ d => PDict d
  | PNamedTuple d => PDict d
  | _ => item
  end.

(** Lines 122-125 and 147-150: a key of [meta], or [None] when [meta] is
    neither a dict nor an object with a [__dict__]. *)
Definition meta_get (meta : pyval) (k : string) : pyval :=
  match meta with
  | PDict d => dict_get d k PNone
  | PObj d | PModel _ d => dict_get d k PNone
  | _ => PNone
  end.

(** Lines 135-144: one turn of the loop over [category_list]; the state is
    the pair [(tags, categories)]. *)
Definition category_step (acc : list pyval * list pyval) (cat : pyval)
  : list pyval * list pyval :=
  match cat with
  | PDict d =>
      (fst acc ++ [dict_get d "name" (PStr "")],
       snd acc ++ [dict_get d "id" (PStr "")])
  | PObj d | PModel _ d =>
      (fst acc ++ [dict_get d "name" (PStr "")],
       snd acc ++ [dict_get d "id" (PStr "")])
  | _ => acc
  end.

(** Lines 130-144. *)
Definition tags_and_categories (meta : pyval) : result (list pyval * list pyval) :=
  match meta with
  | PDict d =>
      if dict_has d "categories" then
        category_list <- py_iter (dict_get d "categories" (PList [])) ;;
        Ok (fold_left category_step category_list ([], []))
      else Ok ([], [])
  | _ => Ok ([], [])
  end.

(** Lines 155-163: the [ToolkitInfo] constructor with its validation. *)
Definition toolkit_info (slug name description logo tags auth_schemes categories : pyval)
  : result ToolkitInfo.t :=
  slug <- validated (as_str slug) ;;
  name <- validated (as_str name) ;;
  description <- validated (as_opt_str description) ;;
  logo <- validated (as_opt_str logo) ;;
  tags <- validated (as_str_list tags) ;;
  auth_schemes <- validated (as_str_list auth_schemes) ;;
  categories <- validated (as_str_list categories) ;;
  Ok (ToolkitInfo.make slug name description logo tags auth_schemes categories).

(** Lines 107-164: the body of the loop over [items]; [None] is
    [continue]. *)
Definition toolkit_of_item (item : pyval) : result (option ToolkitInfo.t) :=
  let toolkit_data := item_data item in
  auth_schemes <- py_get toolkit_data "auth_schemes" (PList []) ;;
  composio_managed_auth_schemes <-
    py_get toolkit_data "composio_managed_auth_schemes" (PList []) ;;
  declared <- py_contains "OAUTH2" auth_schemes ;;
  if negb declared then Ok None else
  managed <- py_contains "OAUTH2" composio_managed_auth_schemes ;;
  if negb managed then Ok None else
  meta <- py_get toolkit_data "meta" (PDict []) ;;
  let logo_url := meta_get meta "logo" in
  logo_url <- (if truthy logo_url then Ok logo_url
               else py_get toolkit_data "logo" PNone) ;;
  tc <- tags_and_categories meta ;;
  let description := meta_get meta "description" in
  description <- (if truthy description then Ok description
                  else py_get toolkit_data "description" PNone) ;;
  slug <- py_get toolkit_data "slug" (PStr "") ;;
  name <- py_get toolkit_data "name" (PStr "") ;;
  toolkit <- toolkit_info slug name description logo_url
               (PList (fst tc)) auth_schemes (PList (snd tc)) ;;
  Ok (Some toolkit).

(** Lines 105-164: the loop, with [toolkits] as its state. *)
Definition collect_toolkits (items : list pyval) : result (list ToolkitInfo.t) :=
  for_each (collect_step toolkit_of_item) items [].

Definition list_toolkits_body (limit : Z) (cursor category : option string)
  : result PagedResult :=
  toolkits_response <-
    toolkits_list (client self) (list_params limit cursor category) ;;
  let response_data := unwrap toolkits_response in
  items <- py_get response_data "items" (PList []) ;;
  items <- py_iter items ;;
  toolkits <- collect_toolkits items ;;
  total_items <-
    py_get response_data "total_items" (PInt (Z.of_nat (length toolkits))) ;;
  total_pages <- py_get response_data "total_pages" (PInt 1) ;;
  current_page <- py_get response_data "current_page" (PInt 1) ;;
  next_cursor <- py_get response_data "next_cursor" PNone ;;
  Ok {| items := toolkits;
        total_items := total_items;
        total_pages := total_pages;
        current_page := current_page;
        next_cursor := next_cursor |}.

Definition list_toolkits (limit : Z) (cursor category : option string)
  : result PagedResult :=
  catch (list_toolkits_body limit cursor category) (fun e => Raise e).

(** *** get_toolkit_by_slug *)

(** Lines 186-189: the first toolkit whose slug is [slug]. *)
Fixpoint first_with_slug (slug : string) (toolkits : list ToolkitInfo.t)
  : option ToolkitInfo.t :=
  match toolkits with
  | [] => None
  | toolkit :: rest =>
      if String.eqb (ToolkitInfo.slug toolkit) slug then Some toolkit
      else first_with_slug slug rest
  end.

Definition get_toolkit_by_slug_body (slug : string) : result (option ToolkitInfo.t) :=
  toolkits_response <- list_toolkits 500 None None ;;
  Ok (first_with_slug slug (items toolkits_response)).

Definition get_toolkit_by_slug (slug : string) : result (option ToolkitInfo.t) :=
  catch (get_toolkit_by_slug_body slug) (fun e => Raise e).

(** *** search_toolkits *)

(** Lines 202-204: the condition of the comprehension. *)
Definition matches (query_lower : string) (toolkit : ToolkitInfo.t) : bool :=
  str_contains query_lower (str_lower (ToolkitInfo.name toolkit))
  || match ToolkitInfo.description toolkit with
     | Some description =>
         negb (String.eqb description "")
         && str_contains query_lower (str_lower description)
     | None => false
     end
  || existsb (fun tag => str_contains query_lower (str_lower tag))
             (ToolkitInfo.tags toolkit).

Definition search_toolkits_body (query : string) (category : option string)
  (limit : Z) (cursor : option string) : result PagedResult :=
  all_toolkits_response <- list_toolkits 500 cursor category ;;
  let toolkits := items all_toolkits_response in
  let query_lower := str_lower query in
  let filtered_toolkits := filter (matches query_lower) toolkits in
  let limited_results := slice_to filtered_toolkits limit in
  Ok {| items := limited_results;
        total_items := PInt (Z.of_nat (length filtered_toolkits));
        total_pages := PInt 1;
        current_page := PInt 1;
        next_cursor := PNone |}.

Definition search_toolkits (query : string) (category : option string)
  (limit : Z) (cursor : option string) : result PagedResult :=
  catch (search_toolkits_body query category limit cursor) (fun e => Raise e).

(** *** get_toolkit_icon *)

(** Lines 229-234 and 256-261: [model_dump()], else [__dict__], else
    [dict(...)]. *)
Definition response_dict (toolkit_response : pyval) : result pyval :=
  match toolkit_response with
  | PModel dump _ => Ok dump
  | PObj d => Ok (PDict d)
  | _ => d <- dict_of toolkit_response ;; Ok (PDict d)
  end.

Definition get_toolkit_icon_body (toolkit_slug : string) : result pyval :=
  toolkit_response <- toolkits_retrieve (client self) toolkit_slug ;;
  toolkit_dict <- response_dict toolkit_response ;;
  meta <- py_get toolkit_dict "meta" (PDict []) ;;
  Ok (meta_get meta "logo").

Definition get_toolkit_icon (toolkit_slug : string) : result pyval :=
  catch (get_toolkit_icon_body toolkit_slug) (fun _ => Ok PNone).

(** *** get_detailed_toolkit_info *)

(** [v.get(k, dflt) if isinstance(v, dict) else getattr(v, k, dflt)] *)
Definition get_or_getattr (v : pyval) (k : string) (dflt : pyval) : pyval :=
  match v with
  | PDict d => dict_get d k dflt
  | _ => py_getattr v k dflt
  end.

(** [v.__dict__ if hasattr(v, '__dict__') else (v or {})] *)
Definition dict_or_empty (v : pyval) : pyval :=
  match v with
  | PObj d | PModel _ d => PDict d
  | _ => if truthy v then v else PDict []
  end.

(** Lines 330-338 and 381-389: the [AuthConfigField] constructor. *)
Definition auth_config_field
  (name display_name type description required default legacy_template_name : pyval)
  : result AuthConfigField.t :=
  name <- validated (as_str name) ;;
  display_name <- validated (as_str display_name) ;;
  type <- validated (as_str type) ;;
  description <- validated (as_opt_str description) ;;
  required <- validated (as_bool required) ;;
  default <- validated (as_opt_str default) ;;
  legacy_template_name <- validated (as_opt_str legacy_template_name) ;;
  Ok (AuthConfigField.make name display_name type description required default
        legacy_template_name).

(** Lines 325-338 and 376-389: one field of a field list. *)
Definition parse_field (field : pyval) : result AuthConfigField.t :=
  let field_dict := unwrap field in
  name <- py_get field_dict "name" (PStr "") ;;
  display_name <- py_get field_dict "display_name" (PStr "") ;;
  type <- py_get field_dict "type" (PStr "string") ;;
  description <- py_get field_dict "description" PNone ;;
  required <- py_get field_dict "required" (PBool false) ;;
  default <- py_get field_dict "default" PNone ;;
  legacy_template_name <- py_get field_dict "legacy_template_name" PNone ;;
  auth_config_field name display_name type description required default
    legacy_template_name.

(** Lines 323-338 and 374-389: the loop over [field_list]. *)
Definition parse_field_list (field_list : pyval) : result (list AuthConfigField.t) :=
  fields <- py_iter field_list ;;
  for_each (fun auth_config_fields field =>
              f <- parse_field field ;; Ok (auth_config_fields ++ [f]))
           fields [].

(** Lines 320-339 and 372-390: the loop over the two requirement levels,
    filling a dict that starts empty. *)
Definition parse_levels (group : pyval)
  : result (list (string * list AuthConfigField.t)) :=
  for_each (fun by_level requirement_level =>
              field_list <- py_get group requirement_level (PList []) ;;
              fields <- parse_field_list field_list ;;
              Ok (dict_set requirement_level fields by_level))
           ["required"; "optional"] [].

(** Lines 296-306 and 353-362: the [fields] of a config, as a dict. *)
Definition config_fields (config : pyval) : result pyval :=
  let config_dict := unwrap config in
  fields_obj <- py_get config_dict "fields" PNone ;;
  Ok (dict_or_empty fields_obj).

(** Lines 294-345: one turn of the first loop over [raw_auth_configs]. *)
Definition parse_config (config : pyval) : result AuthConfigDetails.t :=
  let config_dict := unwrap config in
  fields_dict <- config_fields config ;;
  entries <- py_items fields_dict ;;
  auth_fields <-
    for_each (fun auth_fields entry =>
                let field_type_dict := dict_or_empty (snd entry) in
                by_level <- parse_levels field_type_dict ;;
                Ok (dict_set (fst entry) by_level auth_fields))
             entries [] ;;
  name <- py_get config_dict "name" (PStr "") ;;
  mode <- py_get config_dict "mode" (PStr "") ;;
  name <- validated (as_str name) ;;
  mode <- validated (as_str mode) ;;
  Ok (AuthConfigDetails.make name mode auth_fields).

(** Lines 350-391: the second loop over [raw_auth_configs], which stops at
    the first config whose [connected_account_initiation] is truthy. *)
Fixpoint find_initiation (configs : list pyval)
  : result (option (list (string * list AuthConfigField.t))) :=
  match configs with
  | [] => Ok None
  | config :: rest =>
      fields_dict <- config_fields config ;;
      initiation_obj <- py_get fields_dict "connected_account_initiation" PNone ;;
      if truthy initiation_obj then
        let initiation_dict := unwrap initiation_obj in
        by_level <- parse_levels initiation_dict ;;
        Ok (Some by_level)
      else find_initiation rest
  end.

(** Lines 265-393, from the comment [# Parse the response] on. *)
Definition parse_toolkit_dict (toolkit_dict : pyval) : result DetailedToolkitInfo.t :=
  meta <- py_get toolkit_dict "meta" (PDict []) ;;
  let meta := unwrap meta in
  slug <- py_get toolkit_dict "slug" (PStr "") ;;
  name <- py_get toolkit_dict "name" (PStr "") ;;
  auth_schemes <- py_get toolkit_dict "composio_managed_auth_schemes" (PList []) ;;
  base_url <- py_get toolkit_dict "base_url" PNone ;;
  slug <- validated (as_str slug) ;;
  name <- validated (as_str name) ;;
  description <- validated (as_opt_str (get_or_getattr meta "description" (PStr ""))) ;;
  logo <- validated (as_opt_str (get_or_getattr meta "logo" PNone)) ;;
  tags <- validated (as_str_list (PList [])) ;;
  auth_schemes <- validated (as_str_list auth_schemes) ;;
  _ <- validated (as_str_list (PList [])) ;;
  base_url <- validated (as_opt_str base_url) ;;
  categories_data <- py_iter (get_or_getattr meta "categories" (PList [])) ;;
  let categories :=
    map (fun cat => get_or_getattr cat "name" (PStr "")) categories_data in
  raw_auth_configs <- py_get toolkit_dict "auth_config_details" (PList []) ;;
  raw_auth_configs <- py_iter raw_auth_configs ;;
  auth_config_details <-
    for_each (fun auth_config_details config =>
                c <- parse_config config ;; Ok (auth_config_details ++ [c]))
             raw_auth_configs [] ;;
  connected_account_initiation <- find_initiation raw_auth_configs ;;
  Ok (DetailedToolkitInfo.make slug name description logo tags auth_schemes
        categories auth_config_details connected_account_initiation base_url).

Definition get_detailed_toolkit_info_body (toolkit_slug : string)
  : result DetailedToolkitInfo.t :=
  toolkit_response <- toolkits_retrieve (client self) toolkit_slug ;;
  toolkit_dict <- response_dict toolkit_response ;;
  parse_toolkit_dict toolkit_dict.

Definition get_detailed_toolkit_info (toolkit_slug : string)
  : result (option DetailedToolkitInfo.t) :=
  catch (d <- get_detailed_toolkit_info_body toolkit_slug ;; Ok (Some d))
        (fun _ => Ok None).

End Service.

(** ** A reference runtime *)

(** ASCII lower-casing, [dict(...)] of dicts only, and validation that
    accepts exactly the values of the declared type. It makes the service
    executable on concrete responses. *)

Definition lower_ascii (c : ascii) : ascii :=
  let n := nat_of_ascii c in
  if (Nat.leb 65 n && Nat.leb n 90)%bool then ascii_of_nat (n + 32) else c.

Fixpoint lower (s : string) : string :=
  match s with
  | EmptyString => EmptyString
  | String c s' => String (lower_ascii c) (lower s')
  end.

Definition strict_dict (v : pyval) : result pydict :=
  match v with
  | PDict d => Ok d
  | _ => Raise TypeError
  end.

Definition strict_str (v : pyval) : option string :=
  match v with
  | PStr s => Some s
  | _ => None
  end.

Definition strict_opt_str (v : pyval) : option (option string) :=
  match v with
  | PNone => Some None
  | PStr s => Some (Some s)
  | _ => None
  end.

Fixpoint strict_strs (l : list pyval) : option (list string) :=
  match l with
  | [] => Some []
  | PStr s :: l' =>
      match strict_strs l' with
      | Some r => Some (s :: r)
      | None => None
      end
  | _ :: _ => None
  end.

Definition strict_str_list (v : pyval) : option (list string) :=
  match v with
  | PList l => strict_strs l
  | _ => None
  end.

Definition strict_bool (v : pyval) : option bool :=
  match v with
  | PBool b => Some b
  | _ => None
  end.

Fixpoint strict_strs_map (l : list string) : strict_strs (map PStr l) = Some l :=
  match l with
  | [] => eq_refl
  | s :: l' =>
      @eq_ind_r _ (Some l')
        (fun o => match o with
                  | Some r => Some (s :: r)
                  | None => None
                  end = Some (s :: l'))
        eq_refl _ (strict_strs_map l')
  end.

Definition reference_runtime : Runtime :=
  {| str_lower := lower;
     dict_of := strict_dict;
     dict_of_dict := fun d => eq_refl;
     as_str := strict_str;
     as_str_str := fun s => eq_refl;
     as_opt_str := strict_opt_str;
     as_opt_str_none := eq_refl;
     as_opt_str_str := fun s => eq_refl;
     as_str_list := strict_str_list;
     as_str_list_strs := strict_strs_map;
     as_bool := strict_bool;
     as_bool_bool := fun b => eq_refl |}.

(** ** Logical payloads and their two shapes *)

(** The data a response carries, apart from how its mappings are
    delivered. *)
Inductive payload : Type :=
| JNull
| JBool (b : bool)
| JNum (n : Z)
| JStr (s : string)
| JArr (l : list payload)
| JMap (d : list (string * payload)).

(** Every mapping delivered as a dict. *)
Fixpoint as_mappings (p : payload) : pyval :=
  match p with
  | JNull => PNone
  | JBool b => PBool b
  | JNum n => PInt n
  | JStr s => PStr s
  | JArr l => PList (map as_mappings l)
  | JMap d => PDict (map (fun kv => (fst kv, as_mappings (snd kv))) d)
  end.

(** Every mapping delivered as an object whose attributes are the keys. *)
Fixpoint as_objects (p : payload) : pyval :=
  match p with
  | JNull => PNone
  | JBool b => PBool b
  | JNum n => PInt n
  | JStr s => PStr s
  | JArr l => PList (map as_objects l)
  | JMap d => PObj (map (fun kv => (fst kv, as_objects (snd kv))) d)
  end.

(** The entries of a mapping in either delivery. *)
Definition mappings_of (d : list (string * payload)) : pydict :=
  map (fun kv => (fst kv, as_mappings (snd kv))) d.

Definition objects_of (d : list (string * payload)) : pydict :=
  map (fun kv => (fst kv, as_objects (snd kv))) d.

(** A service whose client answers every call with the same response. *)
Definition constant_client (listing toolkit : result pyval) : ComposioClient :=
  {| toolkits_list := fun _ => listing;
     toolkits_retrieve := fun _ => toolkit |}.

Definition constant_service (listing toolkit : result pyval) : ToolkitService :=
  {| client := constant_client listing toolkit |}.

(** ** Sample data *)

(** The raw item of the specification's example. *)
Definition gmail_raw : payload :=
  JMap [ ("slug", JStr "gmail");
         ("name", JStr "Gmail");
         ("auth_schemes", JArr [JStr "OAUTH2"]);
         ("composio_managed_auth_schemes", JArr [JStr "OAUTH2"]);
         ("meta", JMap [ ("logo", JStr "g.png");
                         ("description", JStr "Email");
                         ("categories",
                          JArr [JMap [("id", JStr "comm");
                                      ("name", JStr "Communication")]]) ]) ].

Definition gmail_summary : ToolkitInfo.t :=
  ToolkitInfo.make "gmail" "Gmail" (Some "Email") (Some "g.png")
    ["Communication"] ["OAUTH2"] ["comm"].

(** A toolkit that declares OAUTH2 but for which Composio manages only an
    API key. *)
Definition notion_raw : payload :=
  JMap [ ("slug", JStr "notion");
         ("name", JStr "Notion");
         ("auth_schemes", JArr [JStr "OAUTH2"; JStr "API_KEY"]);
         ("composio_managed_auth_schemes", JArr [JStr "API_KEY"]) ].

(** A toolkit with its logo and description at the top level only. *)
Definition slack_raw : payload :=
  JMap [ ("slug", JStr "slack");
         ("name", JStr "Slack");
         ("logo", JStr "s.png");
         ("description", JStr "Team chat");
         ("auth_schemes", JArr [JStr "OAUTH2"]);
         ("composio_managed_auth_schemes", JArr [JStr "OAUTH2"]) ].

Definition slack_summary : ToolkitInfo.t :=
  ToolkitInfo.make "slack" "Slack" (Some "Team chat") (Some "s.png")
    [] ["OAUTH2"] [].

Definition calendar_raw : payload :=
  JMap [ ("slug", JStr "googlecalendar");
         ("name", JStr "Google Calendar");
         ("auth_schemes", JArr [JStr "OAUTH2"]);
         ("composio_managed_auth_schemes", JArr [JStr "OAUTH2"]);
         ("meta", JMap [ ("description", JStr "Scheduling for Gmail users") ]) ].

Definition sample_listing : payload :=
  JMap [ ("items", JArr [gmail_raw; notion_raw; slack_raw; calendar_raw]) ].

Definition sample_service : ToolkitService :=
  constant_service (Ok (as_mappings sample_listing)) (Ok (as_mappings gmail_raw)).

(** A toolkit whose only auth config declares an empty
    [connected_account_initiation] group. *)
Definition bare_raw : payload :=
  JMap [ ("slug", JStr "bare");
         ("name", JStr "Bare");
         ("auth_config_details",
          JArr [JMap [ ("name", JStr "default");
                       ("mode", JStr "OAUTH2");
                       ("fields",
                        JMap [("connected_account_initiation", JMap [])]) ]]) ].

(** A client whose calls all fail. *)
Definition failing_service (e : exn) : ToolkitService :=
  constant_service (Raise e) (Raise e).

(** A toolkit whose declared and managed auth schemes differ. *)
Definition drive_raw : payload :=
  JMap [ ("slug", JStr "googledrive");
         ("name", JStr "Google Drive");
         ("logo", JStr "top.png");
         ("auth_schemes", JArr [JStr "OAUTH2"; JStr "API_KEY"]);
         ("composio_managed_auth_schemes", JArr [JStr "OAUTH2"]);
         ("meta", JMap [ ("categories",
                          JArr [JMap [("id", JStr "storage");
                                      ("name", JStr "File Storage")]]) ]) ].

Definition drive_service : ToolkitService :=
  constant_service (Ok (as_mappings (JMap [("items", JArr [drive_raw])])))
                   (Ok (as_mappings drive_raw)).

(** A toolkit with one auth config and a field to ask for when an account
    is linked. *)
Definition zendesk_raw : payload :=
  JMap [ ("slug", JStr "zendesk");
         ("name", JStr "Zendesk");
         ("composio_managed_auth_schemes", JArr [JStr "OAUTH2"]);
         ("meta", JMap [ ("description", JStr "Support desk");
                         ("categories",
                          JArr [JMap [("id", JStr "crm"); ("name", JStr "CRM")]]) ]);
         ("auth_config_details",
          JArr [JMap [ ("name", JStr "zendesk_oauth");
                       ("mode", JStr "OAUTH2");
                       ("fields",
                        JMap [ ("auth_config_creation",
                                JMap [ ("required", JArr []);
                                       ("optional",
                                        JArr [JMap [ ("name", JStr "client_id");
                                                     ("display_name", JStr "Client ID");
                                                     ("type", JStr "string") ]]) ]);
                               ("connected_account_initiation",
                                JMap [ ("required",
                                        JArr [JMap [ ("name", JStr "subdomain");
                                                     ("display_name", JStr "Subdomain");
                                                     ("type", JStr "string");
                                                     ("required", JBool true) ]]) ]) ]) ]]) ].

(** What [list_toolkits] returns on the sample listing. *)
Definition sample_page : PagedResult :=
  {| items :=
       [ gmail_summary; slack_summary;
         ToolkitInfo.make "googlecalendar" "Google Calendar"
           (Some "Scheduling for Gmail users") None [] ["OAUTH2"] [] ];
     total_items := PInt 3;
     total_pages := PInt 1;
     current_page := PInt 1;
     next_cursor := PNone |}.

(** What [search_toolkits] returns on the sample listing for the query
    "GMAIL" with limit 1. *)
Definition sample_hit : PagedResult :=
  {| items := [gmail_summary];
     total_items := PInt 2;
     total_pages := PInt 1;
     current_page := PInt 1;
     next_cursor := PNone |}.

(** ** Predicates the statements are written with *)

(** [v if v else w] *)
Definition or_else (v w : pyval) : pyval := if truthy v then v else w.

(** The dict through which a category entry is read, when it is a dict or
    has a [__dict__]; other entries are skipped. *)
Definition entry_dict (cat : pyval) : list pydict :=
  match cat with
  | PDict d | PObj d | PModel _ d => [d]
  | _ => []
  end.

(** The category entries [list_toolkits] reads from [meta]: those of
    [meta["categories"]] when [meta] is a dict that has the key. *)
Definition category_entries (meta : pyval) : result (list pydict) :=
  match meta with
  | PDict d =>
      if dict_has d "categories" then
        category_list <- py_iter (dict_get d "categories" (PList [])) ;;
        Ok (flat_map entry_dict category_list)
      else Ok []
  | _ => Ok []
  end.

Definition entry_name (entry : pydict) : pyval := dict_get entry "name" (PStr "").
Definition entry_id (entry : pydict) : pyval := dict_get entry "id" (PStr "").

(** *** Well-shaped toolkit payloads *)

Fixpoint jlookup (k : string) (d : list (string * payload)) : option payload :=
  match d with
  | [] => None
  | (k', v) :: d' => if String.eqb k k' then Some v else jlookup k d'
  end.

Definition atom (p : payload) : bool :=
  match p with
  | JArr _ | JMap _ => false
  | _ => true
  end.

(** Data without mappings: an atom or a list of atoms. *)
Definition plain (p : payload) : bool :=
  match p with
  | JArr l => forallb atom l
  | JMap _ => false
  | _ => true
  end.

(** The key is absent or holds plain data. *)
Definition plain_at (k : string) (d : list (string * payload)) : bool :=
  match jlookup k d with
  | Some v => plain v
  | None => true
  end.

(** A field of an auth config: a mapping of plain data. *)
Definition field_shaped (field : payload) : bool :=
  match field with
  | JMap d => forallb (fun kv => plain (snd kv)) d
  | _ => false
  end.

(** The key is absent or holds a list of fields. *)
Definition fields_at (k : string) (d : list (string * payload)) : bool :=
  match jlookup k d with
  | Some (JArr fields) => forallb field_shaped fields
  | Some _ => false
  | None => true
  end.

(** A field group: null, or a mapping with its [required] and [optional]
    field lists. *)
Definition group_shaped (group : payload) : bool :=
  match group with
  | JNull => true
  | JMap d => fields_at "required" d && fields_at "optional" d
  | _ => false
  end.

(** The [fields] of a config, [[]] when absent or null. *)
Definition config_groups (config : list (string * payload))
  : option (list (string * payload)) :=
  match jlookup "fields" config with
  | None | Some JNull => Some []
  | Some (JMap groups) => Some groups
  | Some _ => None
  end.

Definition config_shaped (config : payload) : bool :=
  match config with
  | JMap d =>
      plain_at "name" d && plain_at "mode" d
      && match config_groups d with
         | Some groups => forallb (fun kv => group_shaped (snd kv)) groups
         | None => false
         end
  | _ => false
  end.

(** The config declares a [connected_account_initiation] group that is an
    empty mapping. *)
Definition empty_initiation (config : payload) : bool :=
  match config with
  | JMap d =>
      match config_groups d with
      | Some groups =>
          match jlookup "connected_account_initiation" groups with
          | Some (JMap []) => true
          | _ => false
          end
      | None => false
      end
  | _ => false
  end.

Definition category_shaped (cat : payload) : bool :=
  match cat with
  | JMap d => plain_at "name" d
  | _ => plain cat
  end.

Definition meta_shaped (meta : payload) : bool :=
  match meta with
  | JMap d =>
      plain_at "description" d && plain_at "logo" d
      && match jlookup "categories" d with
         | Some (JArr cats) => forallb category_shaped cats
         | Some _ => false
         | None => true
         end
  | _ => false
  end.

(** The auth configs of a toolkit payload, [[]] when absent. *)
Definition toolkit_configs (d : list (string * payload)) : option (list payload) :=
  match jlookup "auth_config_details" d with
  | None => Some []
  | Some (JArr configs) => Some configs
  | Some _ => None
  end.

(** A toolkit payload laid out as [get_detailed_toolkit_info] reads it:
    plain data at the scalar and scheme fields, mappings at [meta], at the
    category entries, at the auth configs, at their field groups and at
    their fields, lists where the code iterates. *)
Definition toolkit_shaped (toolkit : payload) : bool :=
  match toolkit with
  | JMap d =>
      plain_at "slug" d && plain_at "name" d
      && plain_at "composio_managed_auth_schemes" d && plain_at "base_url" d
      && match jlookup "meta" d with
         | Some meta => meta_shaped meta
         | None => true
         end
      && match toolkit_configs d with
         | Some configs => forallb config_shaped configs
         | None => false
         end
  | _ => false
  end.

(** No auth config of the toolkit declares an empty
    [connected_account_initiation] group. *)
Definition no_empty_initiation (toolkit : payload) : bool :=
  match toolkit with
  | JMap d =>
      match toolkit_configs d with
      | Some configs => negb (existsb empty_initiation configs)
      | None => true
      end
  | _ => true
  end.

(** [q] is a contiguous substring of [s]. *)
Definition substring_of (q s : string) : Prop :=
  exists pre post, s = (pre ++ q ++ post)%string.

(** The lowercased query occurs in the lowercased name, or in the
    lowercased description when there is one, or in a lowercased tag. *)
Definition query_occurs {RT : Runtime} (query : string) (toolkit : ToolkitInfo.t) : Prop :=
  substring_of (str_lower query) (str_lower (ToolkitInfo.name toolkit))
  \/ (exists description,
        ToolkitInfo.description toolkit = Some description
        /\ substring_of (str_lower query) (str_lower description))
  \/ (exists tag,
        In tag (ToolkitInfo.tags toolkit)
        /\ substring_of (str_lower query) (str_lower tag)).

(** ["OAUTH2" in v] holds (and does not raise). *)
Definition mentions_oauth2 (v : pyval) : bool :=
  match py_contains "OAUTH2" v with
  | Ok b => b
  | Raise _ => false
  end.

(** "OAUTH2" is in the item's [auth_schemes] and in its
    [composio_managed_auth_schemes], each [[]] when absent. *)
Definition oauth2_in_both (item : pyval) : bool :=
  match item_data item with
  | PDict d =>
      mentions_oauth2 (dict_get d "auth_schemes" (PList []))
      && mentions_oauth2 (dict_get d "composio_managed_auth_schemes" (PList []))
  | _ => false
  end.

(** The raw items of a listing response. *)
Definition raw_items (toolkits_response : pyval) : result (list pyval) :=
  items <- py_get (unwrap toolkits_response) "items" (PList []) ;;
  py_iter items.

(** ** Reading a value, as the statements say it *)

(** The entries of a dict, or the attributes of an object that has a
    [__dict__] (a plain instance or a pydantic model); nothing for any
    other value. *)
Definition entries_of (v : pyval) : option pydict :=
  match v with
  | PDict d => Some d
  | PObj d => Some d
  | PModel _ d => Some d
  | _ => None
  end.

(** The entries of a dict, or the named attributes of an object: those of
    [entries_of], and the fields of a namedtuple. *)
Definition attributes_of (v : pyval) : option pydict :=
  match v with
  | PNamedTuple d => Some d
  | _ => entries_of v
  end.

(** The value under a key, or the default when the key, or the entries
    themselves, are missing. *)
Definition value_at (entries : option pydict) (k : string) (dflt : pyval) : pyval :=
  match entries with
  | Some d =>
      match lookup k d with
      | Some v => v
      | None => dflt
      end
  | None => dflt
  end.

(** What the top level of an item or response [d] holds under a key;
    [None] when the key is missing. *)
Definition top_value (d : pydict) (k : string) : pyval :=
  value_at (Some d) k PNone.

(** What the [meta] of an item or response [d] yields for a key: the
    entry of [meta] when it is a dict, its attribute when it is an object
    with a [__dict__]; [None] when there is no [meta], when [meta] is
    anything else, or when it lacks the key. *)
Definition meta_value (d : pydict) (k : string) : pyval :=
  value_at (entries_of (value_at (Some d) "meta" (PDict []))) k PNone.

(** The name of a category entry: its [name] key or attribute, the empty
    string when it has none. *)
Definition category_name (cat : pyval) : pyval :=
  value_at (attributes_of cat) "name" (PStr "").

(** The category entries a detail is built from: the [categories] key or
    attribute of the [meta] of the response [d], [[]] when missing. *)
Definition detail_categories (d : pydict) : pyval :=
  value_at (attributes_of (value_at (Some d) "meta" (PDict []))) "categories" (PList []).

(** A toolkit with a logo and a description both in [meta] and at the top
    level. *)
Definition figma_raw : payload :=
  JMap [ ("slug", JStr "figma");
         ("name", JStr "Figma");
         ("logo", JStr "top.png");
         ("description", JStr "Top-level text");
         ("auth_schemes", JArr [JStr "OAUTH2"]);
         ("composio_managed_auth_schemes", JArr [JStr "OAUTH2"]);
         ("meta", JMap [ ("logo", JStr "meta.png");
                         ("description", JStr "Meta text") ]) ].

(** Google Drive with a dict [meta] whose category entry is an object. *)
Definition drive_with_object_entry : pyval :=
  PDict [ ("slug", PStr "googledrive");
          ("name", PStr "Google Drive");
          ("auth_schemes", PList [PStr "OAUTH2"; PStr "API_KEY"]);
          ("composio_managed_auth_schemes", PList [PStr "OAUTH2"]);
          ("meta", PDict [ ("categories",
                            PList [PObj [("id", PStr "storage");
                                         ("name", PStr "File Storage")]]) ]) ].

(** Gmail with its [meta] delivered as a pydantic model. *)
Definition gmail_with_model_meta : pyval :=
  PDict [ ("slug", PStr "gmail");
          ("name", PStr "Gmail");
          ("auth_schemes", PList [PStr "OAUTH2"]);
          ("composio_managed_auth_schemes", PList [PStr "OAUTH2"]);
          ("meta",
           PModel (PDict [("logo", PStr "g.png")])
                  [ ("logo", PStr "g.png");
                    ("description", PStr "Email");
                    ("categories",
                     PList [PDict [("id", PStr "comm");
                                   ("name", PStr "Communication")]]) ]) ].

(** Slack with its [meta] delivered as a namedtuple, which has no
    [__dict__]. *)
Definition slack_with_tuple_meta : pyval :=
  PDict [ ("slug", PStr "slack");
          ("name", PStr "Slack");
          ("logo", PStr "s.png");
          ("auth_schemes", PList [PStr "OAUTH2"]);
          ("composio_managed_auth_schemes", PList [PStr "OAUTH2"]);
          ("meta", PNamedTuple [ ("logo", PStr "tuple.png") ]) ].

(** ** Further predicates and samples *)

(** The condition of the comprehension of [search_toolkits], as a
    proposition: the lowercased query occurs in the lowercased name, or in
    the lowercased description when that is not empty, or in a lowercased
    tag. *)
Definition query_matches {RT : Runtime} (query : string) (toolkit : ToolkitInfo.t) : Prop :=
  substring_of (str_lower query) (str_lower (ToolkitInfo.name toolkit))
  \/ (exists description,
        ToolkitInfo.description toolkit = Some description
        /\ description <> ""
        /\ substring_of (str_lower query) (str_lower description))
  \/ (exists tag,
        In tag (ToolkitInfo.tags toolkit)
        /\ substring_of (str_lower query) (str_lower tag)).

(** The toolkits of a listing that [search_toolkits] keeps for a query. *)
Definition hits {RT : Runtime} (query : string) (listing : PagedResult)
  : list ToolkitInfo.t :=
  filter (matches (str_lower query)) (items listing).

(** A toolkit payload whose [meta], when it is a mapping, holds a plain
    logo. *)
Definition logo_plain (toolkit : payload) : bool :=
  match toolkit with
  | JMap d =>
      match jlookup "meta" d with
      | Some (JMap md) => plain_at "logo" md
      | _ => true
      end
  | _ => false
  end.

(** An item that has nothing but its two scheme lists. *)
Definition anonymous_raw : payload :=
  JMap [ ("auth_schemes", JArr [JStr "OAUTH2"]);
         ("composio_managed_auth_schemes", JArr [JStr "OAUTH2"]) ].

(** An item whose [auth_schemes] is null. *)
Definition null_schemes_raw : payload :=
  JMap [ ("slug", JStr "broken");
         ("name", JStr "Broken");
         ("auth_schemes", JNull);
         ("composio_managed_auth_schemes", JArr [JStr "OAUTH2"]) ].

(** An item without OAUTH2 whose other fields are malformed. *)
Definition basic_only_raw : payload :=
  JMap [ ("slug", JNum 7);
         ("auth_schemes", JArr [JStr "BASIC"]);
         ("composio_managed_auth_schemes", JNull);
         ("meta", JMap [("categories", JNum 3)]) ].

(** A listing with a good item, then one that raises [TypeError], then one
    that raises [AttributeError]. *)
Definition broken_service : ToolkitService :=
  constant_service
    (Ok (as_mappings
           (JMap [("items", JArr [gmail_raw; null_schemes_raw; JStr "junk"])])))
    (Ok (as_mappings
           (JMap [ ("slug", JStr "broken");
                   ("auth_config_details", JArr [JStr "oauth"]) ]))).

(** * Properties *)

(** ** The error monad *)

Lemma bind_Ok {A B : Type} (m : result A) (k : A -> result B) (b : B) :
  bind m k = Ok b -> exists a, m = Ok a /\ k a = Ok b.
Proof.
  destruct m as [a|e]; simpl; intros H; [eauto | discriminate].
Qed.

Lemma catch_reraise {A : Type} (m : result A) :
  catch m (fun e => Raise e) = m.
Proof. destruct m; reflexivity. Qed.

Lemma validated_Ok {A : Type} (o : option A) (a : A) :
  validated o = Ok a -> o = Some a.
Proof. destruct o; simpl; intros H; now inversion H. Qed.

Lemma py_get_Ok (v : pyval) (k : string) (dflt r : pyval) :
  py_get v k dflt = Ok r -> exists d, v = PDict d /\ r = dict_get d k dflt.
Proof.
  destruct v; simpl; intros H; try discriminate.
  inversion H. eauto.
Qed.

(** Splits a hypothesis [x <- m ;; k = Ok r] into [m = Ok x] and
    [k x = Ok r]. *)
Tactic Notation "bind_inv" hyp(H) "as" ident(x) ident(Hx) :=
  apply bind_Ok in H; destruct H as (x & Hx & H).

(** ** Loops that append *)

Section Collect.

Variables (A B : Type) (f : A -> result (option B)).

Lemma for_each_collect (xs : list A) (acc out : list B) :
  for_each (collect_step f) xs acc = Ok out ->
  exists new,
    out = acc ++ new
    /\ Forall2 (fun x b => f x = Ok (Some b)) (filter (kept f) xs) new
    /\ (forall x, In x xs -> exists r, f x = Ok r).
Proof.
  revert acc. induction xs as [|x xs IH]; simpl; intros acc H.
  - inversion H. exists []. rewrite app_nil_r. repeat split; [constructor | tauto].
  - bind_inv H as acc' Hstep. unfold collect_step in Hstep.
    bind_inv Hstep as r Hf. inversion Hstep as [Hacc]; clear Hstep.
    apply IH in H. destruct H as (new & -> & HF & HN).
    unfold kept at 1. rewrite Hf.
    assert (Hall : forall y, x = y \/ In y xs -> exists r', f y = Ok r').
    { intros y [<-|Hy]; [eauto | now apply HN]. }
    destruct r as [b|]; subst acc'.
    + exists (b :: new). rewrite <- app_assoc. simpl.
      repeat split; [now constructor | exact Hall].
    + exists new. repeat split; [exact HF | exact Hall].
Qed.

End Collect.

(** ** Membership of "OAUTH2" *)

Lemma eq_str_true (k : string) (v : pyval) : eq_str k v = true -> v = PStr k.
Proof.
  destruct v; unfold eq_str; try discriminate.
  intros H. apply String.eqb_eq in H. now subst.
Qed.

Lemma eq_str_refl (k : string) : eq_str k (PStr k) = true.
Proof. unfold eq_str. apply String.eqb_refl. Qed.

Lemma mentions_oauth2_list (l : list pyval) :
  mentions_oauth2 (PList l) = true <-> In (PStr "OAUTH2") l.
Proof.
  unfold mentions_oauth2, py_contains. rewrite existsb_exists. split.
  - intros (v & Hin & Heq). apply eq_str_true in Heq. now subst.
  - intros Hin. exists (PStr "OAUTH2"). split; [exact Hin | apply eq_str_refl].
Qed.

Section ListToolkits.

Context {RT : Runtime}.
Variable self : ToolkitService.

(** The loop body reads every item through a dict. *)
Lemma toolkit_of_item_data (item : pyval) (r : option ToolkitInfo.t) :
  toolkit_of_item item = Ok r -> exists d, item_data item = PDict d.
Proof.
  unfold toolkit_of_item. intros H. bind_inv H as a Ha.
  apply py_get_Ok in Ha. destruct Ha as (d & Hd & _). eauto.
Qed.

(** The loop body appends a toolkit exactly for the items that have
    "OAUTH2" in both scheme lists. *)
Lemma toolkit_of_item_filter (item : pyval) (r : option ToolkitInfo.t) :
  toolkit_of_item item = Ok r ->
  oauth2_in_both item = match r with Some _ => true | None => false end.
Proof.
  intros H. destruct (toolkit_of_item_data _ H) as (d & Hd).
  unfold toolkit_of_item in H. unfold oauth2_in_both, mentions_oauth2.
  rewrite Hd in *. cbn [py_get bind] in H.
  destruct (py_contains "OAUTH2" (dict_get d "auth_schemes" (PList [])))
    as [[|]|e]; cbn [bind negb] in H; try discriminate.
  2: { inversion H. reflexivity. }
  destruct (py_contains "OAUTH2"
              (dict_get d "composio_managed_auth_schemes" (PList [])))
    as [[|]|e]; cbn [bind negb] in H; try discriminate.
  2: { inversion H. reflexivity. }
  bind_inv H as logo_url Hlogo. bind_inv H as tc Htc.
  bind_inv H as description Hdescription. bind_inv H as toolkit Htoolkit.
  inversion H. reflexivity.
Qed.

Lemma kept_oauth2_in_both (item : pyval) (r : option ToolkitInfo.t) :
  toolkit_of_item item = Ok r -> kept toolkit_of_item item = oauth2_in_both item.
Proof.
  intros H. rewrite (toolkit_of_item_filter _ H). unfold kept. rewrite H.
  now destruct r.
Qed.

Lemma collect_toolkits_Ok (raw : list pyval) (toolkits : list ToolkitInfo.t) :
  collect_toolkits raw = Ok toolkits ->
  Forall2 (fun item toolkit => toolkit_of_item item = Ok (Some toolkit))
          (filter oauth2_in_both raw) toolkits
  /\ (forall item, In item raw -> oauth2_in_both item = false ->
      toolkit_of_item item = Ok None).
Proof.
  unfold collect_toolkits. intros H.
  apply for_each_collect in H. destruct H as (new & -> & HF & Hall).
  simpl. split.
  - rewrite (filter_ext_in oauth2_in_both (kept toolkit_of_item)); [exact HF |].
    intros item Hin. destruct (Hall item Hin) as (r & Hr).
    symmetry. exact (kept_oauth2_in_both _ Hr).
  - intros item Hin Hno. destruct (Hall item Hin) as (r & Hr).
    rewrite (toolkit_of_item_filter _ Hr) in Hno.
    destruct r; [discriminate | exact Hr].
Qed.

Lemma oauth2_in_both_lists (item : pyval) (d : pydict) (declared managed : list pyval) :
  item_data item = PDict d ->
  dict_get d "auth_schemes" (PList []) = PList declared ->
  dict_get d "composio_managed_auth_schemes" (PList []) = PList managed ->
  oauth2_in_both item = true
  <-> In (PStr "OAUTH2") declared /\ In (PStr "OAUTH2") managed.
Proof.
  intros Hd Ha Hm. unfold oauth2_in_both. rewrite Hd, Ha, Hm.
  rewrite andb_true_iff, !mentions_oauth2_list. tauto.
Qed.

(** Every result of [list_toolkits] comes from a response read through a
    dict, whose items the loop has turned into the returned toolkits. *)
Lemma list_toolkits_Ok (limit : Z) (cursor category : option string) (r : PagedResult) :
  list_toolkits self limit cursor category = Ok r ->
  exists resp d raw,
    toolkits_list (client self) (list_params limit cursor category) = Ok resp
    /\ unwrap resp = PDict d
    /\ raw_items resp = Ok raw
    /\ collect_toolkits raw = Ok (items r)
    /\ total_items r = dict_get d "total_items" (PInt (Z.of_nat (length (items r))))
    /\ total_pages r = dict_get d "total_pages" (PInt 1)
    /\ current_page r = dict_get d "current_page" (PInt 1)
    /\ next_cursor r = dict_get d "next_cursor" PNone.
Proof.
  unfold list_toolkits. rewrite catch_reraise. unfold list_toolkits_body.
  intros H. bind_inv H as resp Hresp. bind_inv H as its Hits.
  destruct (py_get_Ok _ _ _ Hits) as (d & Hd & _).
  bind_inv H as raw Hraw. bind_inv H as toolkits Htoolkits.
  rewrite Hd in H. cbn [py_get bind] in H. inversion H; subst r; clear H.
  exists resp, d, raw. cbn [items total_items total_pages current_page next_cursor].
  repeat split; try assumption.
  unfold raw_items. rewrite Hits. exact Hraw.
Qed.

(** C1. Whenever [list_toolkits] returns, the toolkits it returns are, in
    order and one for one, the normalisations of exactly those raw items
    of the response that have "OAUTH2" in both [auth_schemes] and
    [composio_managed_auth_schemes]; for every other raw item the loop body
    produced nothing. On items whose two scheme fields are lists, having
    "OAUTH2" in both is list membership in both. *)
Theorem list_toolkits_oauth2_filter
  (limit : Z) (cursor category : option string) (r : PagedResult) :
  list_toolkits self limit cursor category = Ok r ->
  exists resp raw,
    toolkits_list (client self) (list_params limit cursor category) = Ok resp
    /\ raw_items resp = Ok raw
    /\ Forall2 (fun item toolkit => toolkit_of_item item = Ok (Some toolkit))
               (filter oauth2_in_both raw) (items r)
    /\ (forall item, In item raw -> oauth2_in_both item = false ->
        toolkit_of_item item = Ok None)
    /\ (forall item d declared managed,
        In item raw ->
        item_data item = PDict d ->
        dict_get d "auth_schemes" (PList []) = PList declared ->
        dict_get d "composio_managed_auth_schemes" (PList []) = PList managed ->
        (oauth2_in_both item = true
         <-> In (PStr "OAUTH2") declared /\ In (PStr "OAUTH2") managed)).
Proof.
  intros H. apply list_toolkits_Ok in H.
  destruct H as (resp & d & raw & Hresp & _ & Hraw & Hcollect & _).
  apply collect_toolkits_Ok in Hcollect. destruct Hcollect as (HF & HN).
  exists resp, raw. split; [exact Hresp|]. split; [exact Hraw|].
  split; [exact HF|]. split; [exact HN|].
  intros item d' declared managed _ Hd Ha Hm.
  exact (oauth2_in_both_lists item Hd Ha Hm).
Qed.

End ListToolkits.

(** The sample listing keeps Gmail, Slack and Google Calendar and drops
    Notion. *)
Lemma list_toolkits_oauth2_filter_witness :
  list_toolkits (RT := reference_runtime) sample_service 500 None None
  = Ok sample_page
  /\ exists resp raw,
      toolkits_list (client sample_service) (list_params 500 None None) = Ok resp
      /\ raw_items resp = Ok raw
      /\ Forall2 (fun item toolkit =>
                    toolkit_of_item (RT := reference_runtime) item = Ok (Some toolkit))
                 (filter oauth2_in_both raw) (items sample_page).
Proof.
  split; [reflexivity |].
  destruct (@list_toolkits_oauth2_filter reference_runtime sample_service
              500 None None sample_page eq_refl)
    as (resp & raw & Hresp & Hraw & HF & _).
  exists resp, raw. repeat split; assumption.
Defined.

(** ** Pagination fields *)

Section Pagination.

Context {RT : Runtime}.
Variable self : ToolkitService.

(** C8. Whenever the client answers with a response that is read through
    a dict [d] and whose items normalise to [toolkits], [list_toolkits]
    returns a record whose [items] are [toolkits] and whose pagination
    fields are those of [d], a field missing from [d] defaulting to
    [len(items)], 1, 1 and [None] respectively. *)
Theorem list_toolkits_pagination
  (limit : Z) (cursor category : option string)
  (resp : pyval) (d : pydict) (raw : list pyval) (toolkits : list ToolkitInfo.t) :
  toolkits_list (client self) (list_params limit cursor category) = Ok resp ->
  unwrap resp = PDict d ->
  raw_items resp = Ok raw ->
  collect_toolkits raw = Ok toolkits ->
  exists r,
    list_toolkits self limit cursor category = Ok r
    /\ items r = toolkits
    /\ total_items r = match lookup "total_items" d with
                       | Some v => v
                       | None => PInt (Z.of_nat (length (items r)))
                       end
    /\ total_pages r = match lookup "total_pages" d with
                       | Some v => v
                       | None => PInt 1
                       end
    /\ current_page r = match lookup "current_page" d with
                        | Some v => v
                        | None => PInt 1
                        end
    /\ next_cursor r = match lookup "next_cursor" d with
                       | Some v => v
                       | None => PNone
                       end.
Proof.
  intros Hresp Hd Hraw Hcollect.
  unfold list_toolkits. rewrite catch_reraise. unfold list_toolkits_body.
  rewrite Hresp. cbn [bind]. unfold raw_items in Hraw. rewrite Hd in *.
  cbn [py_get bind] in *. rewrite Hraw. cbn [bind]. rewrite Hcollect. cbn [bind].
  eexists. split; [reflexivity |]. cbn [items total_items total_pages current_page next_cursor].
  repeat split.
Qed.

End Pagination.

(** The sample listing has no pagination field: all four take their
    defaults. *)
Lemma list_toolkits_pagination_witness :
  exists r,
    list_toolkits (RT := reference_runtime) sample_service 500 None None = Ok r
    /\ items r = items sample_page
    /\ total_items r = PInt 3
    /\ total_pages r = PInt 1
    /\ current_page r = PInt 1
    /\ next_cursor r = PNone.
Proof.
  destruct (@list_toolkits_pagination reference_runtime sample_service
              500 None None (as_mappings sample_listing)
              [("items", as_mappings (JArr [gmail_raw; notion_raw; slack_raw; calendar_raw]))]
              (map as_mappings [gmail_raw; notion_raw; slack_raw; calendar_raw])
              (items sample_page) eq_refl eq_refl eq_refl eq_refl)
    as (r & Hr & Hitems & Hti & Htp & Hcp & Hnc).
  exists r. rewrite Hitems in Hti. repeat split; assumption.
Defined.

(** ** The example of the specification *)

Section GmailExample.

Context {RT : Runtime}.

Lemma as_str_list_nil : as_str_list (PList []) = Some [].
Proof. exact (as_str_list_strs []). Qed.

Lemma as_str_list_one (s : string) : as_str_list (PList [PStr s]) = Some [s].
Proof. exact (as_str_list_strs [s]). Qed.

Lemma toolkit_of_gmail :
  toolkit_of_item (as_mappings gmail_raw) = Ok (Some gmail_summary).
Proof.
  unfold toolkit_of_item, toolkit_info. cbn.
  rewrite !as_str_str, !as_opt_str_str, !as_str_list_one. reflexivity.
Qed.

(** Delivered as objects, the same item loses its tags and categories:
    lines 132-144 read them only when [meta] is a dict. *)
Remark toolkit_of_gmail_objects :
  toolkit_of_item (as_objects gmail_raw)
  = Ok (Some (ToolkitInfo.make "gmail" "Gmail" (Some "Email") (Some "g.png")
                [] ["OAUTH2"] [])).
Proof.
  unfold toolkit_of_item, toolkit_info. cbn.
  rewrite !as_str_str, !as_opt_str_str, !as_str_list_one, !as_str_list_nil.
  reflexivity.
Qed.

(** [list_categories] returns the eight categories of the table. *)
Lemma list_categories_Ok :
  list_categories
  = Ok (map (fun cat => CategoryInfo.make (fst cat) (snd cat)) popular_categories).
Proof.
  unfold list_categories. rewrite catch_reraise.
  unfold list_categories_body, category_info. cbn.
  rewrite !as_str_str. reflexivity.
Qed.

(** C7. On a response whose only item is the Gmail raw item of the
    example, delivered as mappings, [list_toolkits] returns exactly the
    summary of the example (and the default pagination fields). *)
Theorem list_toolkits_gmail
  (toolkit : result pyval) (limit : Z) (cursor category : option string) :
  list_toolkits
    (constant_service (Ok (PDict [("items", PList [as_mappings gmail_raw])])) toolkit)
    limit cursor category
  = Ok {| items :=
            [ ToolkitInfo.make "gmail" "Gmail" (Some "Email") (Some "g.png")
                ["Communication"] ["OAUTH2"] ["comm"] ];
          total_items := PInt 1;
          total_pages := PInt 1;
          current_page := PInt 1;
          next_cursor := PNone |}.
Proof.
  unfold list_toolkits. rewrite catch_reraise. unfold list_toolkits_body.
  cbn [constant_service constant_client client toolkits_list bind unwrap].
  change (py_get (PDict [("items", PList [as_mappings gmail_raw])]) "items" (PList []))
    with (Ok (PList [as_mappings gmail_raw])).
  cbn [bind py_iter]. unfold collect_toolkits. cbn [for_each]. unfold collect_step at 1.
  rewrite toolkit_of_gmail. reflexivity.
Qed.

End GmailExample.

(** Runs a computation on a concrete response, resolving the validation of
    well-typed fields with the laws of the runtime. *)
Ltac run_validation :=
  repeat (cbn;
          first [ rewrite as_str_str
                | rewrite as_opt_str_str
                | rewrite as_opt_str_none
                | rewrite as_bool_bool
                | rewrite as_str_list_nil
                | rewrite as_str_list_one ]);
  cbn.

(** ** Substring search *)

Lemma prefix_app (q s : string) :
  String.prefix q s = true <-> exists post, s = (q ++ post)%string.
Proof.
  revert s. induction q as [|a q IH]; intros s.
  - split; [intros _; now exists s | intros _; now destruct s].
  - destruct s as [|b s]; simpl.
    + split; [discriminate | intros (post & H); discriminate].
    + destruct (ascii_dec a b) as [->|Hab].
      * rewrite IH. split; intros (post & H); exists post.
        -- now rewrite H.
        -- now inversion H.
      * split; [discriminate | intros (post & H)]. inversion H. congruence.
Qed.

(** [str_contains] decides the substring relation. *)
Lemma str_contains_spec (q s : string) :
  str_contains q s = true <-> substring_of q s.
Proof.
  unfold substring_of. induction s as [|c s IH]; cbn [str_contains].
  - rewrite orb_false_r. rewrite prefix_app. split.
    + intros (post & H). now exists EmptyString, post.
    + intros ([|c pre] & post & H); [now exists post | discriminate].
  - rewrite orb_true_iff, IH, prefix_app. split.
    + intros [(post & H) | (pre & post & H)].
      * now exists EmptyString, post.
      * exists (String c pre), post. simpl. now rewrite H.
    + intros ([|c' pre] & post & H).
      * left. now exists post.
      * right. inversion H. now exists pre, post.
Qed.

(** ** Slices *)

Lemma In_firstn {A : Type} (n : nat) (l : list A) (x : A) :
  In x (firstn n l) -> In x l.
Proof.
  intros H. rewrite <- (firstn_skipn n l). apply in_or_app. now left.
Qed.

Lemma In_slice_to {A : Type} (l : list A) (n : Z) (x : A) :
  In x (slice_to l n) -> In x l.
Proof. unfold slice_to. destruct (0 <=? n); apply In_firstn. Qed.

Lemma length_slice_to {A : Type} (l : list A) (n : Z) :
  0 <= n ->
  Z.of_nat (length (slice_to l n)) = Z.min n (Z.of_nat (length l)).
Proof.
  intros Hn. unfold slice_to. apply Z.leb_le in Hn. rewrite Hn.
  apply Z.leb_le in Hn. rewrite length_firstn. lia.
Qed.

(** ** search_toolkits and get_toolkit_by_slug *)

Section Search.

Context {RT : Runtime}.
Variable self : ToolkitService.

Lemma matches_query_occurs (query : string) (toolkit : ToolkitInfo.t) :
  matches (str_lower query) toolkit = true -> query_occurs query toolkit.
Proof.
  unfold matches, query_occurs. rewrite !orb_true_iff.
  intros [[H | H] | H].
  - left. now apply str_contains_spec.
  - right; left. destruct (ToolkitInfo.description toolkit) as [d|]; [|discriminate].
    apply andb_true_iff in H. destruct H as (_ & H).
    exists d. split; [reflexivity | now apply str_contains_spec].
  - right; right. apply existsb_exists in H. destruct H as (tag & Hin & H).
    exists tag. split; [exact Hin | now apply str_contains_spec].
Qed.

(** Every result of [search_toolkits] is built from the 500-limit listing
    of the same cursor and category. *)
Lemma search_toolkits_Ok
  (query : string) (category : option string) (limit : Z) (cursor : option string)
  (r : PagedResult) :
  search_toolkits self query category limit cursor = Ok r ->
  exists listing,
    list_toolkits self 500 cursor category = Ok listing
    /\ r = {| items := slice_to (filter (matches (str_lower query)) (items listing)) limit;
             total_items :=
               PInt (Z.of_nat (length (filter (matches (str_lower query)) (items listing))));
             total_pages := PInt 1;
             current_page := PInt 1;
             next_cursor := PNone |}.
Proof.
  unfold search_toolkits. rewrite catch_reraise. unfold search_toolkits_body.
  intros H. bind_inv H as listing Hlisting. inversion H. eauto.
Qed.

(** C2. Whenever [search_toolkits] returns, [list_toolkits] with the same
    cursor and category (and its default limit, 500) returns as well, every
    item of the search result is an item of that listing, and in every
    item of the search result the lowercased query occurs in the lowercased
    name, or in the lowercased description when there is one, or in at
    least one lowercased tag. *)
Theorem search_toolkits_subset
  (query : string) (category : option string) (limit : Z) (cursor : option string)
  (r : PagedResult) :
  search_toolkits self query category limit cursor = Ok r ->
  exists listing,
    list_toolkits self 500 cursor category = Ok listing
    /\ (forall toolkit, In toolkit (items r) -> In toolkit (items listing))
    /\ (forall toolkit, In toolkit (items r) -> query_occurs query toolkit).
Proof.
  intros H. apply search_toolkits_Ok in H. destruct H as (listing & Hlisting & ->).
  exists listing. split; [exact Hlisting |]. cbn [items].
  split; intros toolkit Hin; apply In_slice_to, filter_In in Hin.
  - tauto.
  - now apply matches_query_occurs.
Qed.

(** C3, amended. Whenever [search_toolkits] returns: if [limit] is not
    negative it returns [min(limit, n)] items, hence at most [limit], where
    [n] is the number of items of the listing that match; [total_items] is
    [n]; and [total_pages], [current_page] and [next_cursor] are 1, 1 and
    [None]. *)
Theorem search_toolkits_limit
  (query : string) (category : option string) (limit : Z) (cursor : option string)
  (r : PagedResult) :
  search_toolkits self query category limit cursor = Ok r ->
  exists listing,
    list_toolkits self 500 cursor category = Ok listing
    /\ (0 <= limit ->
        Z.of_nat (length (items r))
        = Z.min limit
            (Z.of_nat (length (filter (matches (str_lower query)) (items listing))))
        /\ Z.of_nat (length (items r)) <= limit)
    /\ total_items r
       = PInt (Z.of_nat (length (filter (matches (str_lower query)) (items listing))))
    /\ total_pages r = PInt 1
    /\ current_page r = PInt 1
    /\ next_cursor r = PNone.
Proof.
  intros H. apply search_toolkits_Ok in H. destruct H as (listing & Hlisting & ->).
  exists listing. split; [exact Hlisting |].
  cbn [items total_items total_pages current_page next_cursor].
  repeat split. all: rewrite length_slice_to by assumption; lia.
Qed.

Lemma first_with_slug_none (slug : string) (toolkits : list ToolkitInfo.t) :
  first_with_slug slug toolkits = None
  <-> (forall toolkit, In toolkit toolkits -> ToolkitInfo.slug toolkit <> slug).
Proof.
  induction toolkits as [|t toolkits IH]; simpl.
  - split; [intros _ ? [] | reflexivity].
  - destruct (String.eqb_spec (ToolkitInfo.slug t) slug) as [Heq|Hne].
    + split; [discriminate | intros H]. exfalso. exact (H t (or_introl eq_refl) Heq).
    + rewrite IH. split.
      * intros H u [<-|Hu]; [exact Hne | now apply H].
      * intros H u Hu. apply H. now right.
Qed.

Lemma first_with_slug_some (slug : string) (toolkits : list ToolkitInfo.t)
  (toolkit : ToolkitInfo.t) :
  first_with_slug slug toolkits = Some toolkit
  <-> exists before after,
        toolkits = before ++ toolkit :: after
        /\ ToolkitInfo.slug toolkit = slug
        /\ (forall other, In other before -> ToolkitInfo.slug other <> slug).
Proof.
  induction toolkits as [|t toolkits IH]; simpl.
  - split; [discriminate | intros ([|? ?] & after & H & _); discriminate].
  - destruct (String.eqb_spec (ToolkitInfo.slug t) slug) as [Heq|Hne].
    + split.
      * intros H. inversion H; subst t. exists [], toolkits.
        repeat split; [exact Heq | intros ? []].
      * intros ([|b before] & after & H & Hs & Hb); inversion H.
        -- reflexivity.
        -- subst b. exfalso. exact (Hb t (or_introl eq_refl) Heq).
    + rewrite IH. split.
      * intros (before & after & -> & Hs & Hb). exists (t :: before), after.
        repeat split; [exact Hs |].
        intros other [<-|Ho]; [exact Hne | now apply Hb].
      * intros ([|b before] & after & H & Hs & Hb); inversion H.
        -- subst t. contradiction.
        -- subst b. exists before, after. repeat split; [exact Hs |].
           intros other Ho. apply Hb. now right.
Qed.

(** C4. [get_toolkit_by_slug] reads the listing of limit 500 with no
    cursor and no category. When that listing is returned, the client has
    been asked for 500 Composio-managed toolkits with neither cursor nor
    category; if none of the listed toolkits has the slug the result is
    [None]; if one has, the result is a toolkit of the listing with that
    slug, namely the first one. *)
Theorem get_toolkit_by_slug_listing (slug : string) (listing : PagedResult) :
  list_toolkits self 500 None None = Ok listing ->
  (exists resp,
      toolkits_list (client self)
        {| limit := 500; managed_by := "composio"; cursor := None; category := None |}
      = Ok resp)
  /\ ((forall toolkit, In toolkit (items listing) -> ToolkitInfo.slug toolkit <> slug) ->
      get_toolkit_by_slug self slug = Ok None)
  /\ (forall toolkit,
      In toolkit (items listing) -> ToolkitInfo.slug toolkit = slug ->
      exists found before after,
        get_toolkit_by_slug self slug = Ok (Some found)
        /\ items listing = before ++ found :: after
        /\ ToolkitInfo.slug found = slug
        /\ (forall other, In other before -> ToolkitInfo.slug other <> slug)).
Proof.
  intros Hlisting.
  unfold get_toolkit_by_slug. rewrite catch_reraise.
  unfold get_toolkit_by_slug_body. rewrite Hlisting. cbn [bind].
  split; [| split].
  - destruct (list_toolkits_Ok _ _ _ _ Hlisting) as (resp & _ & _ & Hresp & _).
    exists resp. exact Hresp.
  - intros Hnone. apply first_with_slug_none in Hnone. now rewrite Hnone.
  - intros toolkit Hin Hslug.
    destruct (first_with_slug slug (items listing)) as [found|] eqn:Hfound.
    + destruct (proj1 (first_with_slug_some _ _ _) Hfound)
        as (before & after & Hsplit & Hs & Hb).
      exists found, before, after. repeat split; assumption.
    + exfalso. exact (proj1 (first_with_slug_none _ _) Hfound toolkit Hin Hslug).
Qed.

End Search.

(** "GMAIL" is found in the name of Gmail, case-insensitively. *)
Lemma search_toolkits_subset_witness :
  search_toolkits (RT := reference_runtime) sample_service "GMAIL" None 1 None
  = Ok sample_hit
  /\ forall toolkit,
      In toolkit (items sample_hit) ->
      In toolkit (items sample_page)
      /\ query_occurs (RT := reference_runtime) "GMAIL" toolkit.
Proof.
  split; [reflexivity |].
  destruct (@search_toolkits_subset reference_runtime sample_service
              "GMAIL" None 1 None sample_hit eq_refl)
    as (listing & Hlisting & Hsub & Hocc).
  assert (Heq : listing = sample_page) by (inversion Hlisting; reflexivity).
  rewrite Heq in Hsub. intros toolkit Hin. split; [now apply Hsub | now apply Hocc].
Defined.

(** Two toolkits match "GMAIL"; with limit 1 one is returned and
    [total_items] is 2. *)
Lemma search_toolkits_limit_witness :
  search_toolkits (RT := reference_runtime) sample_service "GMAIL" None 1 None
  = Ok sample_hit
  /\ Z.of_nat (length (items sample_hit)) <= 1
  /\ total_items sample_hit = PInt 2.
Proof.
  split; [reflexivity |].
  destruct (@search_toolkits_limit reference_runtime sample_service
              "GMAIL" None 1 None sample_hit eq_refl)
    as (listing & Hlisting & Hlen & Htotal & _).
  split; [apply Hlen; lia | reflexivity].
Defined.

(** C3 as stated fails: all three toolkits of the sample listing match the
    empty query, and with limit -1 the slice [[:-1]] keeps two of them,
    which is more than -1. *)
Lemma search_toolkits_negative_limit :
  search_toolkits (RT := reference_runtime) sample_service "" None (-1) None
  = Ok {| items := [gmail_summary; slack_summary];
          total_items := PInt 3;
          total_pages := PInt 1;
          current_page := PInt 1;
          next_cursor := PNone |}
  /\ ~ (Z.of_nat (length [gmail_summary; slack_summary]) <= -1).
Proof.
  split; [reflexivity |]. simpl. lia.
Qed.

(** Slack is in the sample listing. *)
Lemma get_toolkit_by_slug_listing_witness :
  list_toolkits (RT := reference_runtime) sample_service 500 None None
  = Ok sample_page
  /\ exists found,
      get_toolkit_by_slug (RT := reference_runtime) sample_service "slack"
      = Ok (Some found)
      /\ ToolkitInfo.slug found = "slack".
Proof.
  split; [reflexivity |].
  destruct (@get_toolkit_by_slug_listing reference_runtime sample_service
              "slack" sample_page eq_refl)
    as (_ & _ & Hsome).
  destruct (Hsome slack_summary (or_intror (or_introl eq_refl)) eq_refl)
    as (found & before & after & Hget & _ & Hslug & _).
  exists found. split; assumption.
Defined.

(** ** Error policy *)

Section ErrorPolicy.

Context {RT : Runtime}.
Variable self : ToolkitService.

Lemma catch_swallow {A : Type} (body : result A) (a : A) :
  (exists v, catch body (fun _ => Ok a) = Ok v)
  /\ (forall e, body = Raise e -> catch body (fun _ => Ok a) = Ok a).
Proof.
  split.
  - destruct body; simpl; eauto.
  - intros e ->. reflexivity.
Qed.

(** C5. [list_categories], [list_toolkits], [get_toolkit_by_slug] and
    [search_toolkits] raise the very exception their body raises: the one
    of the client when its call fails, the one of the normalisation
    otherwise, and for the last two the one of [list_toolkits].
    [get_toolkit_icon] and [get_detailed_toolkit_info] never raise, and
    return [None] whenever the client call or anything after it raises. *)
Theorem error_policy :
  (forall e, list_categories_body = Raise e -> list_categories = Raise e)
  /\ (forall limit cursor category e,
      toolkits_list (client self) (list_params limit cursor category) = Raise e ->
      list_toolkits self limit cursor category = Raise e)
  /\ (forall limit cursor category e,
      list_toolkits_body self limit cursor category = Raise e ->
      list_toolkits self limit cursor category = Raise e)
  /\ (forall slug e,
      list_toolkits self 500 None None = Raise e ->
      get_toolkit_by_slug self slug = Raise e)
  /\ (forall query category limit cursor e,
      list_toolkits self 500 cursor category = Raise e ->
      search_toolkits self query category limit cursor = Raise e)
  /\ (forall slug,
      (exists logo, get_toolkit_icon self slug = Ok logo)
      /\ (forall e, toolkits_retrieve (client self) slug = Raise e ->
          get_toolkit_icon self slug = Ok PNone)
      /\ (forall e, get_toolkit_icon_body self slug = Raise e ->
          get_toolkit_icon self slug = Ok PNone))
  /\ (forall slug,
      (exists detail, get_detailed_toolkit_info self slug = Ok detail)
      /\ (forall e, toolkits_retrieve (client self) slug = Raise e ->
          get_detailed_toolkit_info self slug = Ok None)
      /\ (forall e, get_detailed_toolkit_info_body self slug = Raise e ->
          get_detailed_toolkit_info self slug = Ok None)).
Proof.
  repeat apply conj.
  - intros e H. unfold list_categories. now rewrite catch_reraise.
  - intros limit cursor category e H. unfold list_toolkits.
    rewrite catch_reraise. unfold list_toolkits_body. now rewrite H.
  - intros limit cursor category e H. unfold list_toolkits.
    now rewrite catch_reraise.
  - intros slug e H. unfold get_toolkit_by_slug. rewrite catch_reraise.
    unfold get_toolkit_by_slug_body. now rewrite H.
  - intros query category limit cursor e H. unfold search_toolkits.
    rewrite catch_reraise. unfold search_toolkits_body. now rewrite H.
  - intros slug. unfold get_toolkit_icon.
    destruct (catch_swallow (get_toolkit_icon_body self slug) PNone) as (Hret & Hraise).
    repeat apply conj; [exact Hret | | exact Hraise].
    intros e H. apply (Hraise e). unfold get_toolkit_icon_body. now rewrite H.
  - intros slug. unfold get_detailed_toolkit_info.
    destruct (catch_swallow
                (d <- get_detailed_toolkit_info_body self slug ;; Ok (Some d)) None)
      as (Hret & Hraise).
    repeat apply conj; [exact Hret | |].
    + intros e H. apply (Hraise e).
      unfold get_detailed_toolkit_info_body. now rewrite H.
    + intros e H. apply (Hraise e). now rewrite H.
Qed.

End ErrorPolicy.

(** With a client that is down, the four load-bearing methods raise the
    client's exception, and the two auxiliary ones return [None]. *)
Lemma error_policy_witness :
  list_toolkits (RT := reference_runtime)
    (failing_service (ClientError "unreachable")) 500 None None
  = Raise (ClientError "unreachable")
  /\ get_toolkit_by_slug (RT := reference_runtime)
       (failing_service (ClientError "unreachable")) "gmail"
     = Raise (ClientError "unreachable")
  /\ search_toolkits (RT := reference_runtime)
       (failing_service (ClientError "unreachable")) "mail" None 100 None
     = Raise (ClientError "unreachable")
  /\ get_toolkit_icon (RT := reference_runtime)
       (failing_service (ClientError "unreachable")) "gmail"
     = Ok PNone
  /\ get_detailed_toolkit_info (RT := reference_runtime)
       (failing_service (ClientError "unreachable")) "gmail"
     = Ok None.
Proof.
  destruct (@error_policy reference_runtime
              (failing_service (ClientError "unreachable")))
    as (_ & Hlist & _ & Hslug & Hsearch & Hicon & Hdetail).
  repeat apply conj.
  - apply Hlist. reflexivity.
  - apply Hslug. reflexivity.
  - apply Hsearch. reflexivity.
  - apply (proj1 (proj2 (Hicon "gmail")) (ClientError "unreachable")). reflexivity.
  - apply (proj1 (proj2 (Hdetail "gmail")) (ClientError "unreachable")). reflexivity.
Defined.

(** ** Shapes of the response *)

Section Shapes.

Context {RT : Runtime}.

(** C6 fails on the code. A toolkit whose auth config declares an empty
    [connected_account_initiation] group has no initiation fields when the
    response is delivered as mappings (the empty dict is falsy at line 365)
    and has the two empty field lists when it is delivered as objects (an
    object is truthy, whatever its attributes). *)
Theorem detailed_info_depends_on_shape (listing : result pyval) (slug : string) :
  get_detailed_toolkit_info
    (constant_service listing (Ok (as_mappings bare_raw))) slug
  = Ok (Some (DetailedToolkitInfo.make "bare" "Bare" (Some "") None [] [] []
                [AuthConfigDetails.make "default" "OAUTH2"
                   [("connected_account_initiation",
                     [("required", []); ("optional", [])])]]
                None None))
  /\ get_detailed_toolkit_info
       (constant_service listing (Ok (as_objects bare_raw))) slug
     = Ok (Some (DetailedToolkitInfo.make "bare" "Bare" (Some "") None [] [] []
                   [AuthConfigDetails.make "default" "OAUTH2"
                      [("connected_account_initiation",
                        [("required", []); ("optional", [])])]]
                   (Some [("required", []); ("optional", [])]) None))
  /\ get_detailed_toolkit_info
       (constant_service listing (Ok (as_mappings bare_raw))) slug
     <> get_detailed_toolkit_info
          (constant_service listing (Ok (as_objects bare_raw))) slug.
Proof.
  assert (Hmap :
    get_detailed_toolkit_info
      (constant_service listing (Ok (as_mappings bare_raw))) slug
    = Ok (Some (DetailedToolkitInfo.make "bare" "Bare" (Some "") None [] [] []
                  [AuthConfigDetails.make "default" "OAUTH2"
                     [("connected_account_initiation",
                       [("required", []); ("optional", [])])]]
                  None None))).
  { unfold get_detailed_toolkit_info, get_detailed_toolkit_info_body.
    cbn. rewrite dict_of_dict. run_validation. reflexivity. }
  assert (Hobj :
    get_detailed_toolkit_info
      (constant_service listing (Ok (as_objects bare_raw))) slug
    = Ok (Some (DetailedToolkitInfo.make "bare" "Bare" (Some "") None [] [] []
                  [AuthConfigDetails.make "default" "OAUTH2"
                     [("connected_account_initiation",
                       [("required", []); ("optional", [])])]]
                  (Some [("required", []); ("optional", [])]) None))).
  { unfold get_detailed_toolkit_info, get_detailed_toolkit_info_body.
    run_validation. reflexivity. }
  repeat apply conj; [exact Hmap | exact Hobj |].
  rewrite Hmap, Hobj. discriminate.
Qed.

End Shapes.

(** ** What the two normalisations read *)

Section Normalisation.

Context {RT : Runtime}.
Variable self : ToolkitService.

Lemma fold_category_step (category_list tags categories : list pyval) :
  fold_left category_step category_list (tags, categories)
  = (tags ++ map entry_name (flat_map entry_dict category_list),
     categories ++ map entry_id (flat_map entry_dict category_list)).
Proof.
  revert tags categories.
  induction category_list as [|cat l IH]; intros tags categories; simpl.
  - now rewrite !app_nil_r.
  - destruct cat; cbn [category_step entry_dict fst snd app map]; rewrite IH;
      try reflexivity; rewrite <- !app_assoc; reflexivity.
Qed.

Lemma tags_and_categories_entries (meta : pyval) (tc : list pyval * list pyval) :
  tags_and_categories meta = Ok tc ->
  exists entries,
    category_entries meta = Ok entries
    /\ fst tc = map entry_name entries
    /\ snd tc = map entry_id entries.
Proof.
  unfold tags_and_categories, category_entries.
  destruct meta; try (intros H; inversion H; exists []; now repeat split).
  destruct (dict_has d "categories").
  - intros H. bind_inv H as l Hl. inversion H. rewrite fold_category_step.
    exists (flat_map entry_dict l). rewrite Hl. now repeat split.
  - intros H. inversion H. exists []. now repeat split.
Qed.

(** What a toolkit returned by the loop body of [list_toolkits] is made
    of. *)
Lemma toolkit_of_item_Some (item : pyval) (toolkit : ToolkitInfo.t) :
  toolkit_of_item item = Ok (Some toolkit) ->
  exists d entries,
    item_data item = PDict d
    /\ category_entries (dict_get d "meta" (PDict [])) = Ok entries
    /\ as_str (dict_get d "slug" (PStr "")) = Some (ToolkitInfo.slug toolkit)
    /\ as_str (dict_get d "name" (PStr "")) = Some (ToolkitInfo.name toolkit)
    /\ as_opt_str (or_else (meta_get (dict_get d "meta" (PDict [])) "description")
                           (dict_get d "description" PNone))
       = Some (ToolkitInfo.description toolkit)
    /\ as_opt_str (or_else (meta_get (dict_get d "meta" (PDict [])) "logo")
                           (dict_get d "logo" PNone))
       = Some (ToolkitInfo.logo toolkit)
    /\ as_str_list (PList (map entry_name entries)) = Some (ToolkitInfo.tags toolkit)
    /\ as_str_list (dict_get d "auth_schemes" (PList []))
       = Some (ToolkitInfo.auth_schemes toolkit)
    /\ as_str_list (PList (map entry_id entries))
       = Some (ToolkitInfo.categories toolkit).
Proof.
  intros H. destruct (toolkit_of_item_data _ H) as (d & Hd).
  unfold toolkit_of_item in H. rewrite Hd in H. cbn [py_get bind] in H.
  destruct (py_contains "OAUTH2" (dict_get d "auth_schemes" (PList [])))
    as [[|]|e]; cbn [bind negb] in H; try discriminate.
  destruct (py_contains "OAUTH2"
              (dict_get d "composio_managed_auth_schemes" (PList [])))
    as [[|]|e]; cbn [bind negb] in H; try discriminate.
  bind_inv H as logo_url Hlogo. bind_inv H as tc Htc.
  bind_inv H as description Hdescription. bind_inv H as built Hbuilt.
  inversion H; subst built; clear H.
  assert (Hl : logo_url
               = or_else (meta_get (dict_get d "meta" (PDict [])) "logo")
                         (dict_get d "logo" PNone)).
  { unfold or_else.
    destruct (truthy (meta_get (dict_get d "meta" (PDict [])) "logo"));
      now inversion Hlogo. }
  assert (Hde : description
                = or_else (meta_get (dict_get d "meta" (PDict [])) "description")
                          (dict_get d "description" PNone)).
  { unfold or_else.
    destruct (truthy (meta_get (dict_get d "meta" (PDict [])) "description"));
      now inversion Hdescription. }
  subst logo_url description.
  apply tags_and_categories_entries in Htc.
  destruct Htc as (entries & Hentries & Htags & Hcats). rewrite Htags, Hcats in Hbuilt.
  unfold toolkit_info in Hbuilt.
  bind_inv Hbuilt as slug' Hslug. bind_inv Hbuilt as name' Hname.
  bind_inv Hbuilt as description' Hdesc'. bind_inv Hbuilt as logo' Hlogo'.
  bind_inv Hbuilt as tags' Htags'. bind_inv Hbuilt as auth' Hauth'.
  bind_inv Hbuilt as cats' Hcats'. inversion Hbuilt; subst toolkit; clear Hbuilt.
  cbn [ToolkitInfo.slug ToolkitInfo.name ToolkitInfo.description ToolkitInfo.logo
       ToolkitInfo.tags ToolkitInfo.auth_schemes ToolkitInfo.categories].
  exists d, entries. repeat split; try assumption; now apply validated_Ok.
Qed.

(** What a detail returned by [get_detailed_toolkit_info] is read
    from. *)
Lemma detailed_info_Some (slug : string) (detail : DetailedToolkitInfo.t) :
  get_detailed_toolkit_info self slug = Ok (Some detail) ->
  exists resp toolkit_dict categories_data,
    toolkits_retrieve (client self) slug = Ok resp
    /\ response_dict resp = Ok (PDict toolkit_dict)
    /\ py_iter (get_or_getattr (unwrap (dict_get toolkit_dict "meta" (PDict [])))
                  "categories" (PList []))
       = Ok categories_data
    /\ DetailedToolkitInfo.tags detail = []
    /\ DetailedToolkitInfo.categories detail
       = map (fun cat => get_or_getattr cat "name" (PStr "")) categories_data
    /\ as_str_list (dict_get toolkit_dict "composio_managed_auth_schemes" (PList []))
       = Some (DetailedToolkitInfo.auth_schemes detail).
Proof.
  unfold get_detailed_toolkit_info.
  destruct (get_detailed_toolkit_info_body self slug) as [built|e] eqn:H;
    cbn [bind catch]; [| discriminate].
  intros Heq. inversion Heq; subst built; clear Heq.
  unfold get_detailed_toolkit_info_body in H.
  bind_inv H as resp Hresp. bind_inv H as toolkit_dict Hdict.
  unfold parse_toolkit_dict in H. bind_inv H as meta Hmeta.
  destruct (py_get_Ok _ _ _ Hmeta) as (d & -> & ->).
  cbn [py_get bind] in H.
  bind_inv H as slug' Hslug. bind_inv H as name' Hname.
  bind_inv H as description' Hdescription. bind_inv H as logo' Hlogo.
  bind_inv H as tags' Htags. bind_inv H as auth' Hauth.
  bind_inv H as categories' Hcategories. bind_inv H as base_url' Hbase.
  bind_inv H as categories_data Hdata.
  bind_inv H as raw_auth_configs Hraw.
  bind_inv H as auth_config_details Hdetails.
  bind_inv H as initiation Hinitiation.
  inversion H; subst detail; clear H.
  cbn [DetailedToolkitInfo.tags DetailedToolkitInfo.categories
       DetailedToolkitInfo.auth_schemes].
  exists resp, d, categories_data.
  repeat split; try assumption.
  - apply validated_Ok in Htags. rewrite as_str_list_nil in Htags. now inversion Htags.
  - now apply validated_Ok.
Qed.

(** The code's readers against the readings of the statements. *)
Lemma dict_get_value (d : pydict) (k : string) (dflt : pyval) :
  dict_get d k dflt = value_at (Some d) k dflt.
Proof. reflexivity. Qed.

Lemma get_or_getattr_value (v : pyval) (k : string) (dflt : pyval) :
  get_or_getattr v k dflt = value_at (attributes_of v) k dflt.
Proof. destruct v; reflexivity. Qed.

Lemma get_or_getattr_unwrap_value (v : pyval) (k : string) (dflt : pyval) :
  get_or_getattr (unwrap v) k dflt = value_at (attributes_of v) k dflt.
Proof. destruct v; reflexivity. Qed.

Lemma meta_get_value (meta : pyval) (k : string) :
  meta_get meta k = value_at (entries_of meta) k PNone.
Proof. destruct meta; reflexivity. Qed.

Lemma meta_get_meta_value (d : pydict) (k : string) :
  meta_get (dict_get d "meta" (PDict [])) k = meta_value d k.
Proof. unfold meta_value. rewrite meta_get_value. reflexivity. Qed.

(** C9. A detail returned by [get_detailed_toolkit_info] has no tags; its
    categories are the names of the category entries of [meta], each name
    being the [name] key of an entry that is a dict and the [name]
    attribute of an entry that is an object ([""] when missing), and the
    entries being the [categories] key or attribute of [meta]; its auth
    schemes are the validated [composio_managed_auth_schemes] of the
    response. A summary produced by [list_toolkits] instead has as
    categories the ids of the category entries (the names being its tags)
    and as auth schemes the validated [auth_schemes] of the item. *)
Theorem detail_and_summary_normalisation :
  (forall slug detail,
      get_detailed_toolkit_info self slug = Ok (Some detail) ->
      exists resp toolkit_dict categories_data,
        toolkits_retrieve (client self) slug = Ok resp
        /\ response_dict resp = Ok (PDict toolkit_dict)
        /\ py_iter (detail_categories toolkit_dict) = Ok categories_data
        /\ DetailedToolkitInfo.tags detail = []
        /\ DetailedToolkitInfo.categories detail = map category_name categories_data
        /\ as_str_list
             (value_at (Some toolkit_dict) "composio_managed_auth_schemes" (PList []))
           = Some (DetailedToolkitInfo.auth_schemes detail))
  /\ (forall item toolkit,
      toolkit_of_item item = Ok (Some toolkit) ->
      exists d entries,
        item_data item = PDict d
        /\ category_entries (dict_get d "meta" (PDict [])) = Ok entries
        /\ as_str_list (PList (map entry_id entries))
           = Some (ToolkitInfo.categories toolkit)
        /\ as_str_list (PList (map entry_name entries))
           = Some (ToolkitInfo.tags toolkit)
        /\ as_str_list (dict_get d "auth_schemes" (PList []))
           = Some (ToolkitInfo.auth_schemes toolkit)).
Proof.
  split.
  - intros slug detail H. apply detailed_info_Some in H.
    destruct H as (resp & d & cats & Hresp & Hd & Hcats & Htags & Hcategories & Hauth).
    exists resp, d, cats. rewrite get_or_getattr_unwrap_value in Hcats.
    repeat split; try assumption.
    rewrite Hcategories. apply map_ext. intros cat. apply get_or_getattr_value.
  - intros item toolkit H. apply toolkit_of_item_Some in H.
    destruct H as (d & entries & Hd & He & _ & _ & _ & _ & Htags & Hauth & Hcats).
    exists d, entries. repeat split; assumption.
Qed.

(** C10. In a summary produced by [list_toolkits], the logo is the one
    [meta] yields when that is truthy, and the top-level [logo] of the item
    when [meta] yields none or a falsy one; likewise for the description.
    [get_toolkit_icon] returns what [meta] yields for [logo] ([None] when
    it yields nothing) and never the top-level [logo] of the response. *)
Theorem logo_and_description_fallback :
  (forall item toolkit,
      toolkit_of_item item = Ok (Some toolkit) ->
      exists d,
        item_data item = PDict d
        /\ (truthy (meta_value d "logo") = true ->
            as_opt_str (meta_value d "logo") = Some (ToolkitInfo.logo toolkit))
        /\ (truthy (meta_value d "logo") = false ->
            as_opt_str (top_value d "logo") = Some (ToolkitInfo.logo toolkit))
        /\ (truthy (meta_value d "description") = true ->
            as_opt_str (meta_value d "description")
            = Some (ToolkitInfo.description toolkit))
        /\ (truthy (meta_value d "description") = false ->
            as_opt_str (top_value d "description")
            = Some (ToolkitInfo.description toolkit)))
  /\ (forall slug resp toolkit_dict,
      toolkits_retrieve (client self) slug = Ok resp ->
      response_dict resp = Ok (PDict toolkit_dict) ->
      get_toolkit_icon self slug = Ok (meta_value toolkit_dict "logo")).
Proof.
  split.
  - intros item toolkit H. apply toolkit_of_item_Some in H.
    destruct H as (d & entries & Hd & _ & _ & _ & Hdesc & Hlogo & _).
    exists d. unfold or_else in Hdesc, Hlogo.
    rewrite !meta_get_meta_value in Hdesc, Hlogo. unfold top_value.
    rewrite <- !dict_get_value.
    repeat split; try assumption; intros Ht.
    + now rewrite Ht in Hlogo.
    + now rewrite Ht in Hlogo.
    + now rewrite Ht in Hdesc.
    + now rewrite Ht in Hdesc.
  - intros slug resp toolkit_dict Hresp Hdict.
    unfold get_toolkit_icon, get_toolkit_icon_body.
    rewrite Hresp. cbn [bind]. rewrite Hdict. cbn [bind py_get catch].
    now rewrite meta_get_meta_value.
Qed.

End Normalisation.

(** Google Drive declares two schemes of which Composio manages one, and
    has one category. The detail has the category's name and the managed
    scheme, whether the response comes as dicts or as objects; the summary
    has the category's id and the declared schemes, whether the category
    entry is a dict or an object. *)
Lemma detail_and_summary_normalisation_witness :
  (exists detail,
      get_detailed_toolkit_info (RT := reference_runtime)
        (constant_service (Raise TypeError) (Ok (as_mappings drive_raw))) "googledrive"
      = Ok (Some detail)
      /\ DetailedToolkitInfo.tags detail = []
      /\ DetailedToolkitInfo.categories detail = [PStr "File Storage"]
      /\ DetailedToolkitInfo.auth_schemes detail = ["OAUTH2"])
  /\ (exists detail,
      get_detailed_toolkit_info (RT := reference_runtime)
        (constant_service (Raise TypeError) (Ok (as_objects drive_raw))) "googledrive"
      = Ok (Some detail)
      /\ DetailedToolkitInfo.tags detail = []
      /\ DetailedToolkitInfo.categories detail = [PStr "File Storage"]
      /\ DetailedToolkitInfo.auth_schemes detail = ["OAUTH2"])
  /\ (exists toolkit,
      toolkit_of_item (RT := reference_runtime) (as_mappings drive_raw)
      = Ok (Some toolkit)
      /\ ToolkitInfo.tags toolkit = ["File Storage"]
      /\ ToolkitInfo.categories toolkit = ["storage"]
      /\ ToolkitInfo.auth_schemes toolkit = ["OAUTH2"; "API_KEY"])
  /\ (exists toolkit,
      toolkit_of_item (RT := reference_runtime) drive_with_object_entry
      = Ok (Some toolkit)
      /\ ToolkitInfo.tags toolkit = ["File Storage"]
      /\ ToolkitInfo.categories toolkit = ["storage"]
      /\ ToolkitInfo.auth_schemes toolkit = ["OAUTH2"; "API_KEY"]).
Proof.
  split; [| split; [| split]].
  1, 2:
    (match goal with
     | |- exists detail, ?call = _ /\ _ =>
         destruct call as [[detail|]|e] eqn:Hget; try discriminate Hget
     end;
     exists detail; split; [reflexivity |];
     destruct (proj1 (@detail_and_summary_normalisation reference_runtime _)
                 _ _ Hget)
       as (resp & d & cats & Hresp & Hd & Hcats & Htags & Hcategories & Hauth);
     inversion Hresp; subst resp; inversion Hd; subst d;
     inversion Hcats; subst cats; inversion Hauth;
     repeat split; assumption).
  1, 2:
    (match goal with
     | |- exists toolkit, ?call = _ /\ _ =>
         destruct call as [[toolkit|]|e] eqn:Hitem; try discriminate Hitem
     end;
     exists toolkit; split; [reflexivity |];
     destruct (proj2 (@detail_and_summary_normalisation reference_runtime
                        (constant_service (Raise TypeError) (Raise TypeError)))
                 _ _ Hitem)
       as (d & entries & Hd & Hentries & Hcats & Htags & Hauth);
     inversion Hd; subst d; inversion Hentries; subst entries;
     inversion Hcats; inversion Htags; inversion Hauth;
     repeat split; reflexivity).
Defined.

(** Figma has a logo and a description in [meta] and others at the top
    level: the summary carries those of [meta], as a dict and as an
    object, and so does the icon lookup. Google Drive has its logo at the
    top level only: the summary carries it, the icon lookup returns
    [None]. *)
Lemma logo_and_description_fallback_witness :
  (exists toolkit,
      toolkit_of_item (RT := reference_runtime) (as_mappings figma_raw)
      = Ok (Some toolkit)
      /\ ToolkitInfo.logo toolkit = Some "meta.png"
      /\ ToolkitInfo.description toolkit = Some "Meta text")
  /\ (exists toolkit,
      toolkit_of_item (RT := reference_runtime) (as_objects figma_raw)
      = Ok (Some toolkit)
      /\ ToolkitInfo.logo toolkit = Some "meta.png"
      /\ ToolkitInfo.description toolkit = Some "Meta text")
  /\ get_toolkit_icon (RT := reference_runtime)
       (constant_service (Raise TypeError) (Ok (as_mappings figma_raw))) "figma"
     = Ok (PStr "meta.png")
  /\ get_toolkit_icon (RT := reference_runtime)
       (constant_service (Raise TypeError) (Ok (as_objects figma_raw))) "figma"
     = Ok (PStr "meta.png")
  /\ (exists toolkit,
      toolkit_of_item (RT := reference_runtime) (as_mappings drive_raw)
      = Ok (Some toolkit)
      /\ ToolkitInfo.logo toolkit = Some "top.png"
      /\ ToolkitInfo.description toolkit = None)
  /\ get_toolkit_icon (RT := reference_runtime) drive_service "googledrive"
     = Ok PNone.
Proof.
  split; [| split; [| split; [| split; [| split]]]].
  1, 2:
    (match goal with
     | |- exists toolkit, ?call = _ /\ _ =>
         destruct call as [[toolkit|]|e] eqn:Hitem; try discriminate Hitem
     end;
     exists toolkit; split; [reflexivity |];
     destruct (proj1 (@logo_and_description_fallback reference_runtime
                        (constant_service (Raise TypeError) (Raise TypeError)))
                 _ _ Hitem)
       as (d & Hd & Hlogo & _ & Hdescription & _);
     inversion Hd; subst d;
     specialize (Hlogo eq_refl); specialize (Hdescription eq_refl);
     inversion Hlogo; inversion Hdescription; split; reflexivity).
  - exact (proj2 (@logo_and_description_fallback reference_runtime
                    (constant_service (Raise TypeError) (Ok (as_mappings figma_raw))))
             "figma" (as_mappings figma_raw) _ eq_refl eq_refl).
  - exact (proj2 (@logo_and_description_fallback reference_runtime
                    (constant_service (Raise TypeError) (Ok (as_objects figma_raw))))
             "figma" (as_objects figma_raw) _ eq_refl eq_refl).
  - destruct (toolkit_of_item (RT := reference_runtime) (as_mappings drive_raw))
      as [[toolkit|]|e] eqn:Hitem; try discriminate Hitem.
    exists toolkit. split; [reflexivity |].
    destruct (proj1 (@logo_and_description_fallback reference_runtime drive_service)
                (as_mappings drive_raw) toolkit Hitem)
      as (d & Hd & _ & Hlogo & _ & Hdescription).
    inversion Hd; subst d. specialize (Hlogo eq_refl). specialize (Hdescription eq_refl).
    inversion Hlogo. inversion Hdescription. split; reflexivity.
  - exact (proj2 (@logo_and_description_fallback reference_runtime drive_service)
             "googledrive" (as_mappings drive_raw) _ eq_refl eq_refl).
Defined.

(** ** Where the shape of the response does not matter *)

Section ShapeAgnostic.

Context {RT : Runtime}.

Lemma atom_same (p : payload) : atom p = true -> as_mappings p = as_objects p.
Proof. destruct p; simpl; intros H; (reflexivity || discriminate). Qed.

Lemma plain_same (p : payload) : plain p = true -> as_mappings p = as_objects p.
Proof.
  destruct p; cbn [plain as_mappings as_objects]; intros H;
    try reflexivity; try discriminate.
  f_equal. apply map_ext_in. intros x Hx. apply atom_same.
  rewrite forallb_forall in H. now apply H.
Qed.

Lemma lookup_mappings_of (k : string) (d : list (string * payload)) :
  lookup k (mappings_of d) = option_map as_mappings (jlookup k d).
Proof.
  induction d as [|[k' v] d IH]; [reflexivity |].
  cbn [mappings_of map lookup jlookup fst snd].
  destruct (String.eqb k k'); [reflexivity | exact IH].
Qed.

Lemma lookup_objects_of (k : string) (d : list (string * payload)) :
  lookup k (objects_of d) = option_map as_objects (jlookup k d).
Proof.
  induction d as [|[k' v] d IH]; [reflexivity |].
  cbn [objects_of map lookup jlookup fst snd].
  destruct (String.eqb k k'); [reflexivity | exact IH].
Qed.

Lemma jlookup_In (k : string) (d : list (string * payload)) (v : payload) :
  jlookup k d = Some v -> exists k', In (k', v) d.
Proof.
  induction d as [|[k' v'] d IH]; [discriminate |].
  cbn [jlookup]. destruct (String.eqb k k').
  - intros H. inversion H. exists k'. now left.
  - intros H. destruct (IH H) as (k'' & Hin). exists k''. now right.
Qed.

(** A key that holds plain data reads the same in both deliveries. *)
Lemma plain_at_get (k : string) (d : list (string * payload)) (dflt : pyval) :
  plain_at k d = true ->
  dict_get (mappings_of d) k dflt = dict_get (objects_of d) k dflt.
Proof.
  unfold plain_at, dict_get. rewrite lookup_mappings_of, lookup_objects_of.
  destruct (jlookup k d) as [v|]; [apply plain_same | reflexivity].
Qed.

(** A loop over a list reads the list through its elements only. *)
Lemma for_each_map_ext {S A B : Type} (body : S -> B -> result S) (h1 h2 : A -> B)
  (xs : list A) (s : S) :
  (forall s' x, In x xs -> body s' (h1 x) = body s' (h2 x)) ->
  for_each body (map h1 xs) s = for_each body (map h2 xs) s.
Proof.
  revert s. induction xs as [|x xs IH]; intros s H; [reflexivity |].
  cbn [map for_each]. rewrite (H s x (or_introl eq_refl)).
  destruct (body s (h2 x)) as [s'|e]; [| reflexivity].
  cbn [bind]. apply IH. intros s'' y Hy. apply H. now right.
Qed.

Lemma parse_field_same (field : payload) :
  field_shaped field = true ->
  parse_field (as_mappings field) = parse_field (as_objects field).
Proof.
  destruct field; try discriminate. cbn [field_shaped]. intros H.
  unfold parse_field. cbn [as_mappings as_objects unwrap].
  replace (map (fun kv => (fst kv, as_mappings (snd kv))) d)
    with (map (fun kv => (fst kv, as_objects (snd kv))) d); [reflexivity |].
  apply map_ext_in. intros kv Hkv. f_equal. symmetry. apply plain_same.
  rewrite forallb_forall in H. now apply H.
Qed.

Lemma parse_field_list_same (fields : list payload) :
  forallb field_shaped fields = true ->
  parse_field_list (PList (map as_mappings fields))
  = parse_field_list (PList (map as_objects fields)).
Proof.
  intros H. unfold parse_field_list. cbn [py_iter bind].
  apply for_each_map_ext. intros acc field Hin.
  rewrite parse_field_same; [reflexivity |].
  rewrite forallb_forall in H. now apply H.
Qed.

Lemma fields_at_same (k : string) (d : list (string * payload)) :
  fields_at k d = true ->
  parse_field_list (dict_get (mappings_of d) k (PList []))
  = parse_field_list (dict_get (objects_of d) k (PList [])).
Proof.
  unfold fields_at, dict_get. rewrite lookup_mappings_of, lookup_objects_of.
  destruct (jlookup k d) as [[| | | |fields|]|]; cbn [option_map];
    try discriminate; [| reflexivity].
  apply parse_field_list_same.
Qed.

Lemma parse_levels_same (d : list (string * payload)) :
  fields_at "required" d = true -> fields_at "optional" d = true ->
  parse_levels (PDict (mappings_of d)) = parse_levels (PDict (objects_of d)).
Proof.
  intros Hr Ho. unfold parse_levels. cbn [for_each py_get bind].
  rewrite (fields_at_same _ _ Hr), (fields_at_same _ _ Ho). reflexivity.
Qed.

(** [v or {}] on a dict is the dict. *)
Lemma dict_or_empty_dict (d : pydict) : dict_or_empty (PDict d) = PDict d.
Proof. destruct d; reflexivity. Qed.

Lemma group_same (group : payload) :
  group_shaped group = true ->
  parse_levels (dict_or_empty (as_mappings group))
  = parse_levels (dict_or_empty (as_objects group)).
Proof.
  destruct group; try discriminate; [reflexivity |].
  cbn [group_shaped]. rewrite andb_true_iff. intros (Hr & Ho).
  change (as_mappings (JMap d)) with (PDict (mappings_of d)).
  change (as_objects (JMap d)) with (PObj (objects_of d)).
  rewrite dict_or_empty_dict. cbn [dict_or_empty].
  now apply parse_levels_same.
Qed.

(** The [fields] of a config, as both deliveries read them. *)
Lemma config_fields_groups (d groups : list (string * payload)) :
  config_groups d = Some groups ->
  config_fields (as_mappings (JMap d)) = Ok (PDict (mappings_of groups))
  /\ config_fields (as_objects (JMap d)) = Ok (PDict (objects_of groups)).
Proof.
  unfold config_groups, config_fields.
  change (as_mappings (JMap d)) with (PDict (mappings_of d)).
  change (as_objects (JMap d)) with (PObj (objects_of d)).
  cbn [unwrap py_get bind]. unfold dict_get.
  rewrite lookup_mappings_of, lookup_objects_of.
  destruct (jlookup "fields" d) as [[| | | | |gs]|]; cbn [option_map];
    intros H; inversion H; subst groups; clear H.
  - split; reflexivity.
  - change (as_mappings (JMap gs)) with (PDict (mappings_of gs)).
    change (as_objects (JMap gs)) with (PObj (objects_of gs)).
    rewrite dict_or_empty_dict. split; reflexivity.
  - split; reflexivity.
Qed.

Lemma parse_config_same (config : payload) :
  config_shaped config = true ->
  parse_config (as_mappings config) = parse_config (as_objects config).
Proof.
  destruct config; try discriminate. cbn [config_shaped].
  destruct (config_groups d) as [groups|] eqn:Hgroups;
    [| rewrite andb_false_r; discriminate].
  rewrite !andb_true_iff. intros ((Hname & Hmode) & Hshaped).
  destruct (config_fields_groups _ Hgroups) as (Hm & Ho).
  unfold parse_config. rewrite Hm, Ho. cbn [bind py_items].
  change (unwrap (as_mappings (JMap d))) with (PDict (mappings_of d)).
  change (unwrap (as_objects (JMap d))) with (PDict (objects_of d)).
  cbn [py_get bind].
  rewrite (plain_at_get _ _ (PStr "") Hname), (plain_at_get _ _ (PStr "") Hmode).
  unfold mappings_of at 1. unfold objects_of at 1.
  rewrite (for_each_map_ext _
             (fun kv => (fst kv, as_mappings (snd kv)))
             (fun kv => (fst kv, as_objects (snd kv)))); [reflexivity |].
  intros acc kv Hkv. cbn [fst snd]. rewrite group_same; [reflexivity |].
  rewrite forallb_forall in Hshaped. now apply Hshaped.
Qed.

Lemma find_initiation_same (configs : list payload) :
  forallb config_shaped configs = true ->
  existsb empty_initiation configs = false ->
  find_initiation (map as_mappings configs)
  = find_initiation (map as_objects configs).
Proof.
  induction configs as [|config configs IH]; [reflexivity |].
  cbn [forallb existsb]. rewrite andb_true_iff, orb_false_iff.
  intros (Hshaped & Hrest) (Hempty & Hnone).
  specialize (IH Hrest Hnone).
  destruct config; try discriminate. cbn [config_shaped] in Hshaped.
  cbn [empty_initiation] in Hempty.
  destruct (config_groups d) as [groups|] eqn:Hgroups;
    [| rewrite andb_false_r in Hshaped; discriminate].
  rewrite !andb_true_iff in Hshaped. destruct Hshaped as (_ & Hshaped).
  destruct (config_fields_groups _ Hgroups) as (Hm & Ho).
  cbn [map find_initiation]. rewrite Hm, Ho. cbn [bind py_get]. unfold dict_get.
  rewrite lookup_mappings_of, lookup_objects_of.
  destruct (jlookup "connected_account_initiation" groups) as [group|] eqn:Hgroup;
    cbn [option_map]; [| exact IH].
  assert (Hg : group_shaped group = true).
  { destruct (jlookup_In _ _ Hgroup) as (k & Hin).
    rewrite forallb_forall in Hshaped. exact (Hshaped _ Hin). }
  destruct group as [| | | | |g]; try discriminate; [exact IH |].
  destruct g as [|entry g]; [discriminate |].
  cbn [group_shaped] in Hg. rewrite andb_true_iff in Hg. destruct Hg as (Hr & Hopt).
  change (as_mappings (JMap (entry :: g))) with (PDict (mappings_of (entry :: g))).
  change (as_objects (JMap (entry :: g))) with (PObj (objects_of (entry :: g))).
  cbn [truthy unwrap]. cbn [mappings_of map length Nat.eqb negb].
  change (map (fun kv => (fst kv, as_mappings (snd kv))) g) with (mappings_of g).
  change ((fst entry, as_mappings (snd entry)) :: mappings_of g)
    with (mappings_of (entry :: g)).
  now rewrite (parse_levels_same _ Hr Hopt).
Qed.

Lemma category_name_same (cat : payload) :
  category_shaped cat = true ->
  get_or_getattr (as_mappings cat) "name" (PStr "")
  = get_or_getattr (as_objects cat) "name" (PStr "").
Proof.
  destruct cat; cbn [category_shaped plain]; intros H;
    try reflexivity; try discriminate.
  change (as_mappings (JMap d)) with (PDict (mappings_of d)).
  change (as_objects (JMap d)) with (PObj (objects_of d)).
  cbn [get_or_getattr py_getattr]. now apply plain_at_get.
Qed.

(** [meta], unwrapped, in both deliveries. *)
Lemma meta_same (d : list (string * payload)) :
  match jlookup "meta" d with
  | Some meta => meta_shaped meta
  | None => true
  end = true ->
  exists md,
    unwrap (dict_get (mappings_of d) "meta" (PDict [])) = PDict (mappings_of md)
    /\ unwrap (dict_get (objects_of d) "meta" (PDict [])) = PDict (objects_of md)
    /\ meta_shaped (JMap md) = true.
Proof.
  unfold dict_get. rewrite lookup_mappings_of, lookup_objects_of.
  destruct (jlookup "meta" d) as [meta|]; cbn [option_map].
  - destruct meta; try discriminate. intros H. exists d0. now repeat split.
  - intros _. exists []. now repeat split.
Qed.

(** The category names a detail gets, in both deliveries. *)
Lemma categories_same (md : list (string * payload)) :
  match jlookup "categories" md with
  | Some (JArr cats) => forallb category_shaped cats
  | Some _ => false
  | None => true
  end = true ->
  exists cats,
    py_iter (dict_get (mappings_of md) "categories" (PList []))
    = Ok (map as_mappings cats)
    /\ py_iter (dict_get (objects_of md) "categories" (PList []))
       = Ok (map as_objects cats)
    /\ map (fun cat => get_or_getattr cat "name" (PStr "")) (map as_mappings cats)
       = map (fun cat => get_or_getattr cat "name" (PStr "")) (map as_objects cats).
Proof.
  unfold dict_get. rewrite lookup_mappings_of, lookup_objects_of.
  destruct (jlookup "categories" md) as [[| | | |cats|]|]; cbn [option_map];
    try discriminate.
  - intros H. exists cats. repeat split. rewrite !map_map.
    apply map_ext_in. intros cat Hcat. apply category_name_same.
    rewrite forallb_forall in H. now apply H.
  - intros _. exists []. now repeat split.
Qed.

(** The auth configs, in both deliveries. *)
Lemma configs_same (d : list (string * payload)) (configs : list payload) :
  toolkit_configs d = Some configs ->
  dict_get (mappings_of d) "auth_config_details" (PList [])
  = PList (map as_mappings configs)
  /\ dict_get (objects_of d) "auth_config_details" (PList [])
     = PList (map as_objects configs).
Proof.
  unfold toolkit_configs, dict_get. rewrite lookup_mappings_of, lookup_objects_of.
  destruct (jlookup "auth_config_details" d) as [[| | | |l|]|]; cbn [option_map];
    intros H; inversion H; subst configs; now split.
Qed.

(** On a well-shaped toolkit without an empty initiation group, parsing
    gives the same result for both deliveries. *)
Lemma parse_toolkit_dict_same (d : list (string * payload)) :
  toolkit_shaped (JMap d) = true ->
  no_empty_initiation (JMap d) = true ->
  parse_toolkit_dict (PDict (mappings_of d))
  = parse_toolkit_dict (PDict (objects_of d)).
Proof.
  cbn [toolkit_shaped no_empty_initiation].
  destruct (toolkit_configs d) as [configs|] eqn:Hconfigs;
    [| rewrite andb_false_r; discriminate].
  rewrite !andb_true_iff, negb_true_iff.
  intros (((((Hslug & Hname) & Hschemes) & Hurl) & Hmeta) & Hshaped) Hempty.
  destruct (meta_same _ Hmeta) as (md & Hmm & Hmo & Hmd).
  cbn [meta_shaped] in Hmd. rewrite !andb_true_iff in Hmd.
  destruct Hmd as ((Hdescription & Hlogo) & Hcats).
  destruct (categories_same _ Hcats) as (cats & Hcm & Hco & Hnames).
  destruct (configs_same _ Hconfigs) as (Hdm & Hdo).
  unfold parse_toolkit_dict. cbn [py_get bind].
  rewrite Hmm, Hmo, Hdm, Hdo. cbn [get_or_getattr py_iter bind].
  rewrite Hcm, Hco. cbn [bind]. rewrite Hnames.
  rewrite (plain_at_get _ _ (PStr "") Hslug), (plain_at_get _ _ (PStr "") Hname),
    (plain_at_get _ _ (PList []) Hschemes), (plain_at_get _ _ PNone Hurl),
    (plain_at_get _ _ (PStr "") Hdescription), (plain_at_get _ _ PNone Hlogo).
  rewrite (find_initiation_same _ Hshaped Hempty).
  rewrite (for_each_map_ext _ as_mappings as_objects); [reflexivity |].
  intros acc config Hin. rewrite parse_config_same; [reflexivity |].
  rewrite forallb_forall in Hshaped. now apply Hshaped.
Qed.

(** A pydantic response is read through its [model_dump()]: when that is
    the nested-dict delivery, the result is the one of that delivery. *)
Lemma detailed_info_of_model
  (model mappings : ToolkitService) (slug : string)
  (dump attrs : pydict) :
  toolkits_retrieve (client model) slug = Ok (PModel (PDict dump) attrs) ->
  toolkits_retrieve (client mappings) slug = Ok (PDict dump) ->
  get_detailed_toolkit_info model slug = get_detailed_toolkit_info mappings slug.
Proof.
  intros Hmodel Hmappings.
  unfold get_detailed_toolkit_info, get_detailed_toolkit_info_body.
  rewrite Hmodel, Hmappings. cbn [bind response_dict].
  now rewrite dict_of_dict.
Qed.

(** X21. On a well-shaped toolkit payload none of whose auth configs
    declares an empty [connected_account_initiation] group,
    [get_detailed_toolkit_info] returns the same detail whether the
    payload is delivered as nested dicts or as nested objects. *)
Theorem detailed_info_same_on_both_shapes
  (mappings objects : ToolkitService) (slug : string) (toolkit : payload) :
  toolkits_retrieve (client mappings) slug = Ok (as_mappings toolkit) ->
  toolkits_retrieve (client objects) slug = Ok (as_objects toolkit) ->
  toolkit_shaped toolkit = true ->
  no_empty_initiation toolkit = true ->
  get_detailed_toolkit_info mappings slug
  = get_detailed_toolkit_info objects slug.
Proof.
  intros Hm Ho Hshaped Hempty.
  destruct toolkit as [| | | | |d]; try discriminate.
  unfold get_detailed_toolkit_info, get_detailed_toolkit_info_body.
  rewrite Hm, Ho. cbn [bind].
  change (as_mappings (JMap d)) with (PDict (mappings_of d)).
  change (as_objects (JMap d)) with (PObj (objects_of d)).
  cbn [response_dict]. rewrite dict_of_dict. cbn [bind].
  now rewrite (parse_toolkit_dict_same _ Hshaped Hempty).
Qed.

End ShapeAgnostic.

(** Zendesk, with its initiation field, reads the same in both
    deliveries. *)
Lemma detailed_info_same_on_both_shapes_witness :
  get_detailed_toolkit_info (RT := reference_runtime)
    (constant_service (Raise TypeError) (Ok (as_mappings zendesk_raw))) "zendesk"
  = get_detailed_toolkit_info (RT := reference_runtime)
      (constant_service (Raise TypeError) (Ok (as_objects zendesk_raw))) "zendesk".
Proof.
  apply (@detailed_info_same_on_both_shapes reference_runtime
           (constant_service (Raise TypeError) (Ok (as_mappings zendesk_raw)))
           (constant_service (Raise TypeError) (Ok (as_objects zendesk_raw)))
           "zendesk" zendesk_raw); reflexivity.
Defined.

(** * Further properties *)

(** ** Requests *)

Section Requests.

Context {RT : Runtime}.
Variable self : ToolkitService.

(** X1. [list_categories] never raises and returns the eight categories
    of its table, in order and with distinct ids, whatever the runtime
    does with ill-typed values. *)
Theorem list_categories_table :
  exists categories,
    list_categories = Ok categories
    /\ map CategoryInfo.id categories
       = [ "popular"; "productivity"; "crm"; "marketing"; "analytics";
           "communication"; "project-management"; "scheduling" ]
    /\ map CategoryInfo.name categories
       = [ "Popular"; "Productivity"; "CRM"; "Marketing"; "Analytics";
           "Communication"; "Project Management"; "Scheduling" ]
    /\ NoDup (map CategoryInfo.id categories).
Proof.
  eexists. split; [apply list_categories_Ok |].
  cbn [map popular_categories fst snd CategoryInfo.id CategoryInfo.name].
  repeat split.
  repeat (constructor; [cbn [In]; intuition discriminate |]). constructor.
Qed.

(** X2. An empty cursor or category is not sent: the client gets the same
    request, and the caller the same result, as with no cursor or
    category at all, from [list_toolkits] and from [search_toolkits]. *)
Theorem empty_cursor_and_category_are_absent
  (limit : Z) (cursor category : option string) (query : string) :
  list_params limit (Some "") category = list_params limit None category
  /\ list_params limit cursor (Some "") = list_params limit cursor None
  /\ list_toolkits self limit (Some "") category
     = list_toolkits self limit None category
  /\ list_toolkits self limit cursor (Some "")
     = list_toolkits self limit cursor None
  /\ search_toolkits self query (Some "") limit (Some "")
     = search_toolkits self query None limit None.
Proof.
  assert (Hc : list_params limit (Some "") category = list_params limit None category)
    by reflexivity.
  assert (Hk : list_params limit cursor (Some "") = list_params limit cursor None)
    by reflexivity.
  split; [exact Hc |]. split; [exact Hk |].
  unfold search_toolkits, search_toolkits_body, list_toolkits, list_toolkits_body.
  rewrite Hc, Hk. repeat split.
Qed.

End Requests.

(** ** Searching *)

Lemma slice_to_prefix {A : Type} (l : list A) (n : Z) :
  exists dropped,
    l = slice_to l n ++ dropped
    /\ Z.of_nat (length dropped)
       = if 0 <=? n then Z.max 0 (Z.of_nat (length l) - n)
         else Z.min (- n) (Z.of_nat (length l)).
Proof.
  unfold slice_to. destruct (0 <=? n) eqn:Hn.
  - exists (skipn (Z.to_nat n) l). split; [now rewrite firstn_skipn |].
    apply Z.leb_le in Hn. rewrite length_skipn. lia.
  - exists (skipn (Z.to_nat (Z.of_nat (length l) + n)) l).
    split; [now rewrite firstn_skipn |].
    apply Z.leb_gt in Hn. rewrite length_skipn. lia.
Qed.

Section Searching.

Context {RT : Runtime}.
Variable self : ToolkitService.

(** The comprehension's condition holds exactly when the query occurs in
    the name, in a non-empty description or in a tag. *)
Lemma matches_iff (query : string) (toolkit : ToolkitInfo.t) :
  matches (str_lower query) toolkit = true <-> query_matches query toolkit.
Proof.
  unfold matches, query_matches. rewrite !orb_true_iff, str_contains_spec.
  rewrite or_assoc. apply or_iff_compat_l.
  split.
  - intros [H | H].
    + left. destruct (ToolkitInfo.description toolkit) as [d|]; [| discriminate].
      apply andb_true_iff in H. destruct H as (Hne & H).
      exists d. repeat split; [| now apply str_contains_spec].
      intros ->. discriminate.
    + right. apply existsb_exists in H. destruct H as (tag & Hin & H).
      exists tag. split; [exact Hin | now apply str_contains_spec].
  - intros [(d & Hd & Hne & H) | (tag & Hin & H)].
    + left. rewrite Hd. apply andb_true_iff. split.
      * apply negb_true_iff. now apply String.eqb_neq.
      * now apply str_contains_spec.
    + right. apply existsb_exists. exists tag.
      split; [exact Hin | now apply str_contains_spec].
Qed.

Lemma search_toolkits_of_listing
  (query : string) (category : option string) (limit : Z) (cursor : option string)
  (listing : PagedResult) :
  list_toolkits self 500 cursor category = Ok listing ->
  search_toolkits self query category limit cursor
  = Ok {| items := slice_to (hits query listing) limit;
          total_items := PInt (Z.of_nat (length (hits query listing)));
          total_pages := PInt 1;
          current_page := PInt 1;
          next_cursor := PNone |}.
Proof.
  intros H. unfold search_toolkits. rewrite catch_reraise.
  unfold search_toolkits_body. rewrite H. reflexivity.
Qed.

(** X3. When the listing is returned and [limit] is at least the number
    of toolkits that match, [search_toolkits] returns all of them and
    nothing else: a toolkit is in the result exactly when it is in the
    listing and the query occurs in its name, in its non-empty description
    or in one of its tags; the result keeps the order of the listing and
    [total_items] is its length. *)
Theorem search_toolkits_complete
  (query : string) (category : option string) (limit : Z) (cursor : option string)
  (listing : PagedResult) :
  list_toolkits self 500 cursor category = Ok listing ->
  Z.of_nat (length (hits query listing)) <= limit ->
  exists r,
    search_toolkits self query category limit cursor = Ok r
    /\ items r = filter (matches (str_lower query)) (items listing)
    /\ (forall toolkit,
        In toolkit (items r)
        <-> In toolkit (items listing) /\ query_matches query toolkit)
    /\ total_items r = PInt (Z.of_nat (length (items r))).
Proof.
  intros Hlisting Hlimit. eexists. split; [exact (@search_toolkits_of_listing query category limit cursor listing Hlisting) |].
  cbn [items total_items].
  assert (Hall : slice_to (hits query listing) limit = hits query listing).
  { unfold slice_to. assert (H0 : 0 <= limit) by lia.
    apply Z.leb_le in H0. rewrite H0. apply firstn_all2. lia. }
  rewrite Hall. split; [reflexivity |]. split; [| reflexivity].
  intros toolkit. unfold hits. rewrite filter_In, matches_iff. tauto.
Qed.

(** X4. Whatever [limit] is, the result of [search_toolkits] is a prefix
    of the matching toolkits in listing order. A negative [limit] does not
    empty the result: it drops the last [-limit] matches (all of them when
    there are fewer), so with [limit = -1] every match but the last is
    returned. *)
Theorem search_toolkits_prefix
  (query : string) (category : option string) (limit : Z) (cursor : option string)
  (listing : PagedResult) :
  list_toolkits self 500 cursor category = Ok listing ->
  exists r dropped,
    search_toolkits self query category limit cursor = Ok r
    /\ filter (matches (str_lower query)) (items listing) = items r ++ dropped
    /\ (limit < 0 ->
        Z.of_nat (length dropped)
        = Z.min (- limit)
            (Z.of_nat (length (filter (matches (str_lower query)) (items listing)))))
    /\ (0 <= limit ->
        Z.of_nat (length dropped)
        = Z.max 0
            (Z.of_nat (length (filter (matches (str_lower query)) (items listing)))
             - limit)).
Proof.
  intros Hlisting.
  destruct (slice_to_prefix (hits query listing) limit) as (dropped & Hsplit & Hlen).
  eexists. exists dropped. split; [exact (@search_toolkits_of_listing query category limit cursor listing Hlisting) |].
  cbn [items]. split; [exact Hsplit |].
  split; intros Hl.
  - apply Z.leb_gt in Hl. now rewrite Hl in Hlen.
  - apply Z.leb_le in Hl. now rewrite Hl in Hlen.
Qed.

(** X5. The search does not see the case of the query: two queries with
    the same lowercase form get the same result. *)
Theorem search_toolkits_query_case
  (query query' : string) (category : option string) (limit : Z)
  (cursor : option string) :
  str_lower query = str_lower query' ->
  search_toolkits self query category limit cursor
  = search_toolkits self query' category limit cursor.
Proof.
  intros H. unfold search_toolkits, search_toolkits_body. now rewrite H.
Qed.

End Searching.

Lemma search_toolkits_complete_witness :
  exists r,
    search_toolkits (RT := reference_runtime) sample_service "gmail" None 100 None
    = Ok r
    /\ map ToolkitInfo.slug (items r) = ["gmail"; "googlecalendar"].
Proof.
  destruct (@search_toolkits_complete reference_runtime sample_service
              "gmail" None 100 None sample_page eq_refl)
    as (r & Hr & Hitems & _).
  - vm_compute. discriminate.
  - exists r. split; [exact Hr |]. rewrite Hitems. reflexivity.
Defined.

Lemma search_toolkits_prefix_witness :
  exists r dropped,
    search_toolkits (RT := reference_runtime) sample_service "" None (-1) None = Ok r
    /\ items sample_page = items r ++ dropped
    /\ length dropped = 1%nat.
Proof.
  destruct (@search_toolkits_prefix reference_runtime sample_service
              "" None (-1) None sample_page eq_refl)
    as (r & dropped & Hr & Hsplit & Hneg & _).
  exists r, dropped. split; [exact Hr |]. split; [exact Hsplit |].
  assert (Hone : Z.of_nat (length dropped) = 1) by (rewrite (Hneg eq_refl); reflexivity).
  lia.
Defined.

Lemma search_toolkits_query_case_witness :
  search_toolkits (RT := reference_runtime) sample_service "GMail" None 100 None
  = search_toolkits (RT := reference_runtime) sample_service "gmail" None 100 None.
Proof.
  apply (@search_toolkits_query_case reference_runtime sample_service
           "GMail" "gmail" None 100 None).
  reflexivity.
Defined.

(** ** Listing: where the toolkits come from *)

Lemma Forall2_In_r {A B : Type} (P : A -> B -> Prop) (xs : list A) (ys : list B) (y : B) :
  Forall2 P xs ys -> In y ys -> exists x, In x xs /\ P x y.
Proof.
  induction 1 as [|x y' xs ys HP HF IH]; [intros [] |].
  intros [<-|Hin].
  - exists x. split; [now left | exact HP].
  - destruct (IH Hin) as (x' & Hx' & HP'). exists x'. split; [now right | exact HP'].
Qed.

Section Provenance.

Context {RT : Runtime}.
Variable self : ToolkitService.

(** Every toolkit of a listing is the normalisation of a raw item of the
    response that has "OAUTH2" in both scheme fields. *)
Lemma listed_toolkit_origin
  (limit : Z) (cursor category : option string) (listing : PagedResult)
  (toolkit : ToolkitInfo.t) :
  list_toolkits self limit cursor category = Ok listing ->
  In toolkit (items listing) ->
  exists resp raw item,
    toolkits_list (client self) (list_params limit cursor category) = Ok resp
    /\ raw_items resp = Ok raw
    /\ In item raw
    /\ oauth2_in_both item = true
    /\ toolkit_of_item item = Ok (Some toolkit).
Proof.
  intros H Hin. apply list_toolkits_Ok in H.
  destruct H as (resp & d & raw & Hresp & _ & Hraw & Hcollect & _).
  apply collect_toolkits_Ok in Hcollect. destruct Hcollect as (HF & _).
  destruct (@Forall2_In_r _ _ _ _ _ _ HF Hin) as (item & Hitem & Hnorm).
  apply filter_In in Hitem. destruct Hitem as (Hitem & Hboth).
  exists resp, raw, item. repeat split; assumption.
Qed.

(** X6. A toolkit found by [get_toolkit_by_slug] has the requested slug
    and is the normalisation of a raw item of the 500-limit listing that
    has "OAUTH2" in both scheme fields: a toolkit that Composio lists
    without managed OAUTH2 is never found by its slug. *)
Theorem get_toolkit_by_slug_origin (slug : string) (found : ToolkitInfo.t) :
  get_toolkit_by_slug self slug = Ok (Some found) ->
  exists resp raw item,
    toolkits_list (client self) (list_params 500 None None) = Ok resp
    /\ raw_items resp = Ok raw
    /\ In item raw
    /\ oauth2_in_both item = true
    /\ toolkit_of_item item = Ok (Some found)
    /\ ToolkitInfo.slug found = slug.
Proof.
  unfold get_toolkit_by_slug. rewrite catch_reraise.
  unfold get_toolkit_by_slug_body. intros H. bind_inv H as listing Hlisting.
  assert (Hfound : first_with_slug slug (items listing) = Some found)
    by congruence.
  clear H. apply first_with_slug_some in Hfound.
  destruct Hfound as (before & after & Hsplit & Hslug & _).
  assert (Hin : In found (items listing)).
  { rewrite Hsplit. apply in_or_app. right. now left. }
  destruct (@listed_toolkit_origin _ _ _ _ _ Hlisting Hin)
    as (resp & raw & item & Hresp & Hraw & Hitem & Hboth & Hnorm).
  exists resp, raw, item. repeat split; assumption.
Qed.

(** X7. Every toolkit returned by [search_toolkits] is the normalisation
    of a raw item of the 500-limit listing (same cursor and category) that
    has "OAUTH2" in both scheme fields. *)
Theorem search_toolkits_origin
  (query : string) (category : option string) (limit : Z) (cursor : option string)
  (r : PagedResult) (toolkit : ToolkitInfo.t) :
  search_toolkits self query category limit cursor = Ok r ->
  In toolkit (items r) ->
  exists resp raw item,
    toolkits_list (client self) (list_params 500 cursor category) = Ok resp
    /\ raw_items resp = Ok raw
    /\ In item raw
    /\ oauth2_in_both item = true
    /\ toolkit_of_item item = Ok (Some toolkit).
Proof.
  intros H Hin. apply search_toolkits_Ok in H.
  destruct H as (listing & Hlisting & ->). cbn [items] in Hin.
  apply In_slice_to, filter_In in Hin. destruct Hin as (Hin & _).
  exact (@listed_toolkit_origin _ _ _ _ _ Hlisting Hin).
Qed.

(** X8. When the response has no [total_items], the [total_items] of
    [list_toolkits] is the number of raw items with "OAUTH2" in both scheme
    fields, which is also the number of returned toolkits; when the
    response has one, it is passed on as it is, whatever the number of
    toolkits kept. *)
Theorem list_toolkits_total_items
  (limit : Z) (cursor category : option string) (r : PagedResult) :
  list_toolkits self limit cursor category = Ok r ->
  exists resp d raw,
    toolkits_list (client self) (list_params limit cursor category) = Ok resp
    /\ unwrap resp = PDict d
    /\ raw_items resp = Ok raw
    /\ length (items r) = length (filter oauth2_in_both raw)
    /\ (lookup "total_items" d = None ->
        total_items r = PInt (Z.of_nat (length (filter oauth2_in_both raw))))
    /\ (forall v, lookup "total_items" d = Some v -> total_items r = v).
Proof.
  intros H. apply list_toolkits_Ok in H.
  destruct H as (resp & d & raw & Hresp & Hd & Hraw & Hcollect & Htotal & _).
  apply collect_toolkits_Ok in Hcollect. destruct Hcollect as (HF & _).
  apply Forall2_length in HF.
  exists resp, d, raw. unfold dict_get in Htotal.
  repeat split; try assumption; [now symmetry | |].
  - intros Hnone. rewrite Hnone in Htotal. now rewrite Htotal, HF.
  - intros v Hsome. now rewrite Hsome in Htotal.
Qed.

End Provenance.

(** Notion is in the sample response but, lacking managed OAUTH2, is not
    found; Slack is, and comes from a raw item with OAUTH2 in both. *)
Lemma get_toolkit_by_slug_origin_witness :
  get_toolkit_by_slug (RT := reference_runtime) sample_service "notion" = Ok None
  /\ exists item,
      In item (map as_mappings [gmail_raw; notion_raw; slack_raw; calendar_raw])
      /\ oauth2_in_both item = true
      /\ toolkit_of_item (RT := reference_runtime) item = Ok (Some slack_summary).
Proof.
  split; [reflexivity |].
  destruct (@get_toolkit_by_slug_origin reference_runtime sample_service
              "slack" slack_summary eq_refl)
    as (resp & raw & item & Hresp & Hraw & Hitem & Hboth & Hnorm & _).
  inversion Hresp; subst resp. inversion Hraw; subst raw.
  exists item. repeat split; assumption.
Defined.

Lemma search_toolkits_origin_witness :
  exists item,
    In item (map as_mappings [gmail_raw; notion_raw; slack_raw; calendar_raw])
    /\ oauth2_in_both item = true
    /\ toolkit_of_item (RT := reference_runtime) item = Ok (Some gmail_summary).
Proof.
  destruct (@search_toolkits_origin reference_runtime sample_service
              "GMAIL" None 1 None sample_hit gmail_summary eq_refl
              (or_introl eq_refl))
    as (resp & raw & item & Hresp & Hraw & Hitem & Hboth & Hnorm).
  inversion Hresp; subst resp. inversion Hraw; subst raw.
  exists item. repeat split; assumption.
Defined.

Lemma list_toolkits_total_items_witness :
  exists raw,
    raw_items (as_mappings sample_listing) = Ok raw
    /\ length raw = 4%nat
    /\ total_items sample_page = PInt 3.
Proof.
  destruct (@list_toolkits_total_items reference_runtime sample_service
              500 None None sample_page eq_refl)
    as (resp & d & raw & Hresp & Hd & Hraw & Hlen & Hnone & _).
  inversion Hresp; subst resp. exists raw. split; [exact Hraw |].
  inversion Hraw; subst raw. split; reflexivity.
Defined.

(** ** Listing: one item *)

Lemma lookup_none_get (d : pydict) (k : string) (dflt : pyval) :
  lookup k d = None -> dict_get d k dflt = dflt.
Proof. unfold dict_get. now intros ->. Qed.

Lemma lookup_some_get (d : pydict) (k : string) (dflt v : pyval) :
  lookup k d = Some v -> dict_get d k dflt = v.
Proof. unfold dict_get. now intros ->. Qed.

Lemma contains_strs (k : string) (l : list string) :
  In k l -> py_contains k (PList (map PStr l)) = Ok true.
Proof.
  intros H. cbn [py_contains]. f_equal. apply existsb_exists.
  exists (PStr k). split; [now apply in_map | apply eq_str_refl].
Qed.

Section OneItem.

Context {RT : Runtime}.
Variable self : ToolkitService.

(** X9. When the [meta] of an item is present and is not a dict, the
    summary has no tags and no categories, whatever categories [meta]
    holds. Its logo and description are still read from [meta] when that
    is an object with a [__dict__] (a plain instance or a pydantic model),
    with the item's top-level fields as fallback when falsy; for any other
    [meta] (a namedtuple, a string, a list, ...) they are the top-level
    fields. *)
Theorem summary_of_object_meta
  (item : pyval) (d : pydict) (meta : pyval) (toolkit : ToolkitInfo.t) :
  item_data item = PDict d ->
  lookup "meta" d = Some meta ->
  (forall md, meta <> PDict md) ->
  toolkit_of_item item = Ok (Some toolkit) ->
  ToolkitInfo.tags toolkit = []
  /\ ToolkitInfo.categories toolkit = []
  /\ as_opt_str (or_else (value_at (entries_of meta) "logo" PNone)
                        (top_value d "logo"))
     = Some (ToolkitInfo.logo toolkit)
  /\ as_opt_str (or_else (value_at (entries_of meta) "description" PNone)
                        (top_value d "description"))
     = Some (ToolkitInfo.description toolkit).
Proof.
  intros Hd Hmeta Hnot H. apply toolkit_of_item_Some in H.
  destruct H as (d' & entries & Hd' & He & _ & _ & Hdesc & Hlogo & Htags & _ & Hcats).
  rewrite Hd in Hd'. inversion Hd'; subst d'; clear Hd'.
  rewrite (lookup_some_get _ _ _ Hmeta) in *.
  assert (Hentries : entries = []).
  { destruct meta; cbn [category_entries] in He; try (now inversion He).
    exfalso. exact (Hnot _ eq_refl). }
  subst entries. cbn [map] in Htags, Hcats.
  rewrite as_str_list_nil in Htags, Hcats.
  rewrite !meta_get_value in Hdesc, Hlogo.
  inversion Htags. inversion Hcats. repeat split; assumption.
Qed.

(** X10. An item that has "OAUTH2" in both scheme lists and none of the
    keys [slug], [name], [meta], [logo], [description] is not rejected: its
    summary has the empty string as slug and name, no description, no
    logo, no tags, no categories, and the declared schemes. *)
Theorem summary_of_bare_item
  (item : pyval) (d : pydict) (schemes : list string) :
  item_data item = PDict d ->
  lookup "auth_schemes" d = Some (PList (map PStr schemes)) ->
  In "OAUTH2" schemes ->
  mentions_oauth2 (dict_get d "composio_managed_auth_schemes" (PList [])) = true ->
  lookup "slug" d = None ->
  lookup "name" d = None ->
  lookup "meta" d = None ->
  lookup "logo" d = None ->
  lookup "description" d = None ->
  toolkit_of_item item
  = Ok (Some (ToolkitInfo.make "" "" None None [] schemes [])).
Proof.
  intros Hd Hschemes Hin Hmanaged Hslug Hname Hmeta Hlogo Hdescription.
  unfold toolkit_of_item. rewrite Hd. cbn [py_get bind].
  rewrite (lookup_some_get _ _ _ Hschemes), (contains_strs _ _ Hin).
  cbn [bind negb]. unfold mentions_oauth2 in Hmanaged.
  destruct (py_contains "OAUTH2"
              (dict_get d "composio_managed_auth_schemes" (PList [])))
    as [b|e]; [| discriminate].
  subst b. cbn [bind negb].
  rewrite (lookup_none_get _ _ _ Hmeta), (lookup_none_get _ _ _ Hlogo),
    (lookup_none_get _ _ _ Hdescription), (lookup_none_get _ _ _ Hslug),
    (lookup_none_get _ _ _ Hname).
  cbn. unfold toolkit_info.
  rewrite !as_str_str, !as_opt_str_none, !as_str_list_nil, as_str_list_strs.
  reflexivity.
Qed.

(** X11. An item whose [auth_schemes] does not contain "OAUTH2" (in
    particular one without the key) is skipped without anything else of
    it being read: a null [composio_managed_auth_schemes], an ill-typed
    slug or a malformed [meta] raise nothing. *)
Theorem item_without_oauth2_is_skipped (item : pyval) (d : pydict) :
  item_data item = PDict d ->
  lookup "auth_schemes" d = None
  \/ py_contains "OAUTH2" (dict_get d "auth_schemes" (PList [])) = Ok false ->
  toolkit_of_item item = Ok None.
Proof.
  intros Hd H.
  assert (Hc : py_contains "OAUTH2" (dict_get d "auth_schemes" (PList [])) = Ok false).
  { destruct H as [H | H]; [| exact H]. now rewrite (lookup_none_get _ _ _ H). }
  unfold toolkit_of_item. rewrite Hd. cbn [py_get bind]. rewrite Hc. reflexivity.
Qed.

(** X12. The default [[]] of the scheme lists covers a missing key only.
    An item whose [auth_schemes] is null, or which declares "OAUTH2" and
    whose [composio_managed_auth_schemes] is null, raises [TypeError]. *)
Theorem item_with_null_schemes_raises (item : pyval) (d : pydict) :
  item_data item = PDict d ->
  lookup "auth_schemes" d = Some PNone
  \/ (py_contains "OAUTH2" (dict_get d "auth_schemes" (PList [])) = Ok true
      /\ lookup "composio_managed_auth_schemes" d = Some PNone) ->
  toolkit_of_item item = Raise TypeError.
Proof.
  intros Hd H. unfold toolkit_of_item. rewrite Hd. cbn [py_get bind].
  destruct H as [H | (Hc & H)].
  - now rewrite (lookup_some_get _ _ _ H).
  - rewrite Hc. cbn [bind negb]. now rewrite (lookup_some_get _ _ _ H).
Qed.

End OneItem.

(** Gmail with [meta] as a plain object and as a pydantic model: no tags,
    no categories, the logo of [meta]. Slack with [meta] as a namedtuple:
    the top-level logo. *)
Lemma summary_of_object_meta_witness :
  (exists toolkit,
      toolkit_of_item (RT := reference_runtime) (as_objects gmail_raw)
      = Ok (Some toolkit)
      /\ ToolkitInfo.tags toolkit = []
      /\ ToolkitInfo.categories toolkit = []
      /\ ToolkitInfo.logo toolkit = Some "g.png")
  /\ (exists toolkit,
      toolkit_of_item (RT := reference_runtime) gmail_with_model_meta
      = Ok (Some toolkit)
      /\ ToolkitInfo.tags toolkit = []
      /\ ToolkitInfo.categories toolkit = []
      /\ ToolkitInfo.logo toolkit = Some "g.png")
  /\ (exists toolkit,
      toolkit_of_item (RT := reference_runtime) slack_with_tuple_meta
      = Ok (Some toolkit)
      /\ ToolkitInfo.tags toolkit = []
      /\ ToolkitInfo.categories toolkit = []
      /\ ToolkitInfo.logo toolkit = Some "s.png").
Proof.
  split; [| split].
  all:
    (match goal with
     | |- exists toolkit, toolkit_of_item ?item = _ /\ _ =>
         destruct (toolkit_of_item (RT := reference_runtime) item)
           as [[toolkit|]|e] eqn:Hitem; try discriminate Hitem;
         exists toolkit; split; [reflexivity |];
         destruct (@summary_of_object_meta reference_runtime item
                     _ _ toolkit eq_refl eq_refl
                     (fun md H => ltac:(discriminate H)) Hitem)
           as (Htags & Hcats & Hlogo & _)
     end;
     inversion Hlogo; repeat split; assumption).
Defined.

Lemma summary_of_bare_item_witness :
  toolkit_of_item (RT := reference_runtime) (as_mappings anonymous_raw)
  = Ok (Some (ToolkitInfo.make "" "" None None [] ["OAUTH2"] [])).
Proof.
  apply (@summary_of_bare_item reference_runtime (as_mappings anonymous_raw)
           (mappings_of [ ("auth_schemes", JArr [JStr "OAUTH2"]);
                          ("composio_managed_auth_schemes", JArr [JStr "OAUTH2"]) ])
           ["OAUTH2"]);
    try reflexivity.
  now left.
Defined.

Lemma item_without_oauth2_is_skipped_witness :
  toolkit_of_item (RT := reference_runtime) (as_mappings basic_only_raw) = Ok None.
Proof.
  apply (@item_without_oauth2_is_skipped reference_runtime
           (as_mappings basic_only_raw) _ eq_refl).
  right. reflexivity.
Defined.

Lemma item_with_null_schemes_raises_witness :
  toolkit_of_item (RT := reference_runtime) (as_mappings null_schemes_raw)
  = Raise TypeError.
Proof.
  apply (@item_with_null_schemes_raises reference_runtime
           (as_mappings null_schemes_raw) _ eq_refl).
  left. reflexivity.
Defined.

(** ** Listing: failures *)

Lemma for_each_collect_Raise {A B : Type} (f : A -> result (option B))
  (xs : list A) (acc : list B) (x : A) (e : exn) :
  In x xs -> f x = Raise e ->
  exists before culprit after e',
    xs = before ++ culprit :: after
    /\ (forall y, In y before -> exists r, f y = Ok r)
    /\ f culprit = Raise e'
    /\ for_each (collect_step f) xs acc = Raise e'.
Proof.
  revert acc. induction xs as [|y xs IH]; intros acc Hin Hx; [destruct Hin |].
  cbn [for_each]. unfold collect_step at 1.
  destruct (f y) as [r|e0] eqn:Hy.
  - cbn [bind]. destruct Hin as [-> | Hin]; [congruence |].
    destruct (IH (match r with Some b => acc ++ [b] | None => acc end) Hin Hx)
      as (before & culprit & after & e' & Hsplit & Hbefore & Hc & Hfor).
    exists (y :: before), culprit, after, e'. rewrite Hsplit in *.
    split; [reflexivity |]. split; [| split; [exact Hc | exact Hfor]].
    intros z [<- | Hz]; [eauto | now apply Hbefore].
  - exists [], y, xs, e0.
    split; [reflexivity |]. split; [intros z [] |]. split; [exact Hy | reflexivity].
Qed.

Section ListingFailures.

Context {RT : Runtime}.
Variable self : ToolkitService.

(** X13. [list_toolkits] returns no partial listing: when the
    normalisation of one raw item of the response raises, the whole call
    raises, and the exception is the one of the first raw item that fails:
    every item before it normalises (to a toolkit or to nothing), whatever
    the items after it do. *)
Theorem list_toolkits_no_partial_listing
  (limit : Z) (cursor category : option string)
  (resp : pyval) (raw : list pyval) (item : pyval) (e : exn) :
  toolkits_list (client self) (list_params limit cursor category) = Ok resp ->
  raw_items resp = Ok raw ->
  In item raw ->
  toolkit_of_item item = Raise e ->
  exists before culprit after e',
    raw = before ++ culprit :: after
    /\ (forall earlier, In earlier before -> exists r, toolkit_of_item earlier = Ok r)
    /\ toolkit_of_item culprit = Raise e'
    /\ list_toolkits self limit cursor category = Raise e'.
Proof.
  intros Hresp Hraw Hin Hitem.
  destruct (for_each_collect_Raise toolkit_of_item raw [] item Hin Hitem)
    as (before & culprit & after & e' & Hsplit & Hbefore & He' & Hfor).
  exists before, culprit, after, e'.
  split; [exact Hsplit |]. split; [exact Hbefore |]. split; [exact He' |].
  unfold list_toolkits. rewrite catch_reraise. unfold list_toolkits_body.
  rewrite Hresp. cbn [bind]. unfold raw_items in Hraw.
  bind_inv Hraw as its Hits. rewrite Hits. cbn [bind]. rewrite Hraw. cbn [bind].
  unfold collect_toolkits. now rewrite Hfor.
Qed.

End ListingFailures.

(** Gmail normalises, the item with null schemes raises [TypeError], the
    string after it would raise [AttributeError]: the listing raises
    [TypeError], the exception of the first of the two. *)
Lemma list_toolkits_no_partial_listing_witness :
  toolkit_of_item (RT := reference_runtime) (PStr "junk") = Raise AttributeError
  /\ list_toolkits (RT := reference_runtime) broken_service 500 None None
     = Raise TypeError.
Proof.
  split; [reflexivity |].
  destruct (@list_toolkits_no_partial_listing reference_runtime broken_service
              500 None None _ _ (PStr "junk") AttributeError
              eq_refl eq_refl (or_intror (or_intror (or_introl eq_refl))) eq_refl)
    as (before & culprit & after & e' & Hsplit & Hbefore & He' & Hlist).
  rewrite Hlist. f_equal.
  destruct before as [|b0 [|b1 [|b2 before]]]; inversion Hsplit; subst.
  - discriminate He'.
  - now inversion He'.
  - destruct (Hbefore (as_mappings null_schemes_raw) (or_intror (or_introl eq_refl)))
      as (r & Hr). discriminate Hr.
  - destruct before; discriminate.
Defined.

(** ** Details: what they are made of *)

Lemma for_each_append {A B : Type} (f : A -> result B) (xs : list A) (acc out : list B) :
  for_each (fun acc x => b <- f x ;; Ok (acc ++ [b])) xs acc = Ok out ->
  exists bs, out = acc ++ bs /\ Forall2 (fun x b => f x = Ok b) xs bs.
Proof.
  revert acc. induction xs as [|x xs IH]; intros acc H.
  - inversion H. exists []. rewrite app_nil_r. split; [reflexivity | constructor].
  - cbn [for_each] in H. bind_inv H as acc' Hstep. bind_inv Hstep as b Hb.
    inversion Hstep; subst acc'; clear Hstep.
    destruct (IH _ H) as (bs & -> & HF). exists (b :: bs).
    rewrite <- app_assoc. split; [reflexivity | now constructor].
Qed.

Lemma Forall2_In_l {A B : Type} (P : A -> B -> Prop) (xs : list A) (ys : list B) (x : A) :
  Forall2 P xs ys -> In x xs -> exists y, In y ys /\ P x y.
Proof.
  induction 1 as [|x' y xs ys HP HF IH]; [intros [] |].
  intros [<-|Hin].
  - exists y. split; [now left | exact HP].
  - destruct (IH Hin) as (y' & Hy' & HP'). exists y'. split; [now right | exact HP'].
Qed.

Lemma In_dict_set {V : Type} (k k' : string) (v v' : V) (d : list (string * V)) :
  In (k', v') (dict_set k v d) -> (k', v') = (k, v) \/ In (k', v') d.
Proof.
  induction d as [|[k0 v0] d IH]; cbn [dict_set].
  - intros [H | []]. left. now symmetry.
  - destruct (String.eqb k k0).
    + intros [H | H]; [left; now symmetry | right; now right].
    + intros [H | H]; [right; now left |].
      destruct (IH H) as [Heq | Hin]; [now left | right; now right].
Qed.

Section DetailParts.

Context {RT : Runtime}.
Variable self : ToolkitService.

(** What the body of [get_detailed_toolkit_info] builds a detail from. *)
Lemma detailed_info_parts (slug : string) (detail : DetailedToolkitInfo.t) :
  get_detailed_toolkit_info_body self slug = Ok detail ->
  exists resp d categories_data configs,
    toolkits_retrieve (client self) slug = Ok resp
    /\ response_dict resp = Ok (PDict d)
    /\ as_opt_str (get_or_getattr (unwrap (dict_get d "meta" (PDict [])))
                     "description" (PStr ""))
       = Some (DetailedToolkitInfo.description detail)
    /\ as_opt_str (get_or_getattr (unwrap (dict_get d "meta" (PDict [])))
                     "logo" PNone)
       = Some (DetailedToolkitInfo.logo detail)
    /\ py_iter (get_or_getattr (unwrap (dict_get d "meta" (PDict [])))
                  "categories" (PList []))
       = Ok categories_data
    /\ DetailedToolkitInfo.categories detail
       = map (fun cat => get_or_getattr cat "name" (PStr "")) categories_data
    /\ py_iter (dict_get d "auth_config_details" (PList [])) = Ok configs
    /\ Forall2 (fun config parsed => parse_config config = Ok parsed)
               configs (DetailedToolkitInfo.auth_config_details detail)
    /\ find_initiation configs
       = Ok (DetailedToolkitInfo.connected_account_initiation_fields detail).
Proof.
  intros H. unfold get_detailed_toolkit_info_body in H.
  bind_inv H as resp Hresp. bind_inv H as toolkit_dict Hdict.
  unfold parse_toolkit_dict in H. bind_inv H as meta Hmeta.
  destruct (py_get_Ok _ _ _ Hmeta) as (d & -> & ->).
  cbn [py_get bind] in H.
  bind_inv H as slug' Hslug. bind_inv H as name' Hname.
  bind_inv H as description' Hdescription. bind_inv H as logo' Hlogo.
  bind_inv H as tags' Htags. bind_inv H as auth' Hauth.
  bind_inv H as categories' Hcategories. bind_inv H as base_url' Hbase.
  bind_inv H as categories_data Hdata.
  bind_inv H as configs Hconfigs.
  bind_inv H as auth_config_details Hdetails.
  bind_inv H as initiation Hinitiation.
  inversion H; subst detail; clear H.
  cbn [DetailedToolkitInfo.description DetailedToolkitInfo.logo
       DetailedToolkitInfo.categories DetailedToolkitInfo.auth_config_details
       DetailedToolkitInfo.connected_account_initiation_fields].
  apply for_each_append in Hdetails. destruct Hdetails as (parsed & -> & HF).
  exists resp, d, categories_data, configs.
  repeat split; try assumption; now apply validated_Ok.
Qed.

Lemma get_detailed_Some_body (slug : string) (detail : DetailedToolkitInfo.t) :
  get_detailed_toolkit_info self slug = Ok (Some detail) ->
  get_detailed_toolkit_info_body self slug = Ok detail.
Proof.
  unfold get_detailed_toolkit_info.
  destruct (get_detailed_toolkit_info_body self slug) as [built|e];
    cbn [bind catch]; intros H; now inversion H.
Qed.

(** A field group always comes out with its two requirement levels. *)
Lemma parse_levels_keys (group : pyval) (by_level : list (string * list AuthConfigField.t)) :
  parse_levels group = Ok by_level -> map fst by_level = ["required"; "optional"].
Proof.
  unfold parse_levels. cbn [for_each]. intros H.
  bind_inv H as l1 H1. bind_inv H1 as fl1 Hfl1. bind_inv H1 as f1 Hf1.
  inversion H1; subst l1; clear H1.
  bind_inv H as l2 H2. bind_inv H2 as fl2 Hfl2. bind_inv H2 as f2 Hf2.
  inversion H2; subst l2; clear H2. inversion H. reflexivity.
Qed.

Lemma parse_config_groups (config : pyval) (parsed : AuthConfigDetails.t)
  (field_type : string) (group : list (string * list AuthConfigField.t)) :
  parse_config config = Ok parsed ->
  In (field_type, group) (AuthConfigDetails.fields parsed) ->
  map fst group = ["required"; "optional"].
Proof.
  unfold parse_config. intros H. bind_inv H as fields_dict Hfields.
  bind_inv H as entries Hentries. bind_inv H as auth_fields Hauth.
  bind_inv H as name Hname. bind_inv H as mode Hmode.
  bind_inv H as name' Hname'. bind_inv H as mode' Hmode'.
  inversion H; subst parsed; clear H. cbn [AuthConfigDetails.fields].
  clear - Hauth. intros Hin.
  assert (Hinv : forall k g,
             In (k, g) (@nil (string * list (string * list AuthConfigField.t))) ->
             map fst g = ["required"; "optional"]) by (intros ? ? []).
  revert Hinv Hauth Hin. generalize (@nil (string * list (string * list AuthConfigField.t))).
  induction entries as [|entry entries IH]; intros acc Hinv Hauth Hin.
  - inversion Hauth; subst. exact (Hinv _ _ Hin).
  - cbn [for_each] in Hauth. bind_inv Hauth as acc' Hstep.
    bind_inv Hstep as by_level Hlevels. inversion Hstep; subst acc'; clear Hstep.
    apply (IH (dict_set (fst entry) by_level acc)); [| exact Hauth | exact Hin].
    intros k g Hkg. apply In_dict_set in Hkg. destruct Hkg as [Heq | Hold].
    + inversion Heq; subst g. exact (parse_levels_keys _ Hlevels).
    + exact (Hinv _ _ Hold).
Qed.

Lemma find_initiation_keys (configs : list pyval)
  (group : list (string * list AuthConfigField.t)) :
  find_initiation configs = Ok (Some group) ->
  map fst group = ["required"; "optional"].
Proof.
  induction configs as [|config configs IH]; cbn [find_initiation]; [discriminate |].
  intros H. bind_inv H as fields_dict Hfields. bind_inv H as initiation_obj Hobj.
  destruct (truthy initiation_obj); [| exact (IH H)].
  bind_inv H as by_level Hlevels. inversion H; subst group.
  exact (parse_levels_keys _ Hlevels).
Qed.

(** X14. In every detail returned by [get_detailed_toolkit_info], each
    field group of each auth config, and the connected-account initiation
    fields when there are some, have exactly the two keys [required] and
    [optional], in that order, also when the response gives only one of
    them or neither. *)
Theorem detail_groups_have_both_levels (slug : string) (detail : DetailedToolkitInfo.t) :
  get_detailed_toolkit_info self slug = Ok (Some detail) ->
  (forall config field_type group,
      In config (DetailedToolkitInfo.auth_config_details detail) ->
      In (field_type, group) (AuthConfigDetails.fields config) ->
      map fst group = ["required"; "optional"])
  /\ (forall group,
      DetailedToolkitInfo.connected_account_initiation_fields detail = Some group ->
      map fst group = ["required"; "optional"]).
Proof.
  intros H. apply get_detailed_Some_body, detailed_info_parts in H.
  destruct H as (resp & d & cats & configs & _ & _ & _ & _ & _ & _ & _ & HF & Hinit).
  split.
  - intros config field_type group Hc Hg.
    destruct (@Forall2_In_r _ _ _ _ _ _ HF Hc) as (raw & _ & Hparse).
    exact (parse_config_groups _ _ _ Hparse Hg).
  - intros group Hsome. rewrite Hsome in Hinit.
    exact (find_initiation_keys _ Hinit).
Qed.

(** X15. A detail is all or nothing: when one auth config of the response
    cannot be parsed, [get_detailed_toolkit_info] returns [None], not a
    detail with the other configs. *)
Theorem detail_all_or_nothing
  (slug : string) (resp : pyval) (d : pydict) (configs : list pyval)
  (config : pyval) (e : exn) :
  toolkits_retrieve (client self) slug = Ok resp ->
  response_dict resp = Ok (PDict d) ->
  py_iter (dict_get d "auth_config_details" (PList [])) = Ok configs ->
  In config configs ->
  parse_config config = Raise e ->
  get_detailed_toolkit_info self slug = Ok None.
Proof.
  intros Hresp Hdict Hconfigs Hin Hparse.
  unfold get_detailed_toolkit_info.
  destruct (get_detailed_toolkit_info_body self slug) as [detail|e'] eqn:Hbody;
    cbn [bind catch]; [| reflexivity].
  exfalso. apply detailed_info_parts in Hbody.
  destruct Hbody as (resp' & d' & cats & configs' & Hresp' & Hdict' & _ & _ & _ & _
                     & Hconfigs' & HF & _).
  rewrite Hresp in Hresp'. inversion Hresp'; subst resp'.
  rewrite Hdict in Hdict'. inversion Hdict'; subst d'.
  rewrite Hconfigs in Hconfigs'. inversion Hconfigs'; subst configs'.
  destruct (@Forall2_In_l _ _ _ _ _ _ HF Hin) as (parsed & _ & Hok). congruence.
Qed.

(** X16. When the response has no [meta], the detail has the empty string
    as description (not [None], unlike a summary), no logo and no
    categories. *)
Theorem detail_without_meta
  (slug : string) (resp : pyval) (d : pydict) (detail : DetailedToolkitInfo.t) :
  toolkits_retrieve (client self) slug = Ok resp ->
  response_dict resp = Ok (PDict d) ->
  lookup "meta" d = None ->
  get_detailed_toolkit_info self slug = Ok (Some detail) ->
  DetailedToolkitInfo.description detail = Some ""
  /\ DetailedToolkitInfo.logo detail = None
  /\ DetailedToolkitInfo.categories detail = [].
Proof.
  intros Hresp Hdict Hmeta H. apply get_detailed_Some_body, detailed_info_parts in H.
  destruct H as (resp' & d' & cats & configs & Hresp' & Hdict' & Hdesc & Hlogo
                 & Hcats & Hcategories & _).
  rewrite Hresp in Hresp'. inversion Hresp'; subst resp'.
  rewrite Hdict in Hdict'. inversion Hdict'; subst d'.
  rewrite (lookup_none_get _ _ _ Hmeta) in *.
  cbn [unwrap get_or_getattr dict_get lookup] in *.
  rewrite as_opt_str_str in Hdesc. rewrite as_opt_str_none in Hlogo.
  cbn [py_iter] in Hcats. inversion Hcats; subst cats.
  inversion Hdesc. inversion Hlogo. now repeat split.
Qed.

End DetailParts.

(** Zendesk's initiation group has only [required] in the response; the
    detail has both levels. *)
Lemma detail_groups_have_both_levels_witness :
  exists detail group,
    get_detailed_toolkit_info (RT := reference_runtime)
      (constant_service (Raise TypeError) (Ok (as_mappings zendesk_raw))) "zendesk"
    = Ok (Some detail)
    /\ DetailedToolkitInfo.connected_account_initiation_fields detail = Some group
    /\ map fst group = ["required"; "optional"].
Proof.
  destruct (get_detailed_toolkit_info (RT := reference_runtime)
              (constant_service (Raise TypeError) (Ok (as_mappings zendesk_raw)))
              "zendesk") as [[detail|]|e] eqn:Hget; try discriminate Hget.
  destruct (DetailedToolkitInfo.connected_account_initiation_fields detail)
    as [group|] eqn:Hgroup.
  - exists detail, group. split; [reflexivity |]. split; [exact Hgroup |].
    exact (proj2 (@detail_groups_have_both_levels reference_runtime _ _ _ Hget)
             group Hgroup).
  - exfalso. inversion Hget; subst detail. discriminate Hgroup.
Defined.

(** An auth config that is a string cannot be parsed: no detail. *)
Lemma detail_all_or_nothing_witness :
  get_detailed_toolkit_info (RT := reference_runtime) broken_service "broken"
  = Ok None.
Proof.
  apply (@detail_all_or_nothing reference_runtime broken_service "broken"
           _ _ [PStr "oauth"] (PStr "oauth") AttributeError eq_refl eq_refl eq_refl
           (or_introl eq_refl) eq_refl).
Defined.

Lemma detail_without_meta_witness :
  exists detail,
    get_detailed_toolkit_info (RT := reference_runtime)
      (constant_service (Raise TypeError) (Ok (as_mappings bare_raw))) "bare"
    = Ok (Some detail)
    /\ DetailedToolkitInfo.description detail = Some "".
Proof.
  destruct (get_detailed_toolkit_info (RT := reference_runtime)
              (constant_service (Raise TypeError) (Ok (as_mappings bare_raw)))
              "bare") as [[detail|]|e] eqn:Hget; try discriminate Hget.
  exists detail. split; [reflexivity |].
  exact (proj1 (@detail_without_meta reference_runtime
                  (constant_service (Raise TypeError) (Ok (as_mappings bare_raw)))
                  "bare" _ _ detail eq_refl eq_refl eq_refl Hget)).
Defined.

(** ** Details: fields, keys, shapes *)

Section DetailFields.

Context {RT : Runtime}.

(** X17. A field that has none of the seven keys read by the code comes
    out with name and display name empty, type "string", not required, and
    no description, default or legacy template name. The display name is
    read from [display_name]: a [displayName] key is not looked at. *)
Theorem field_defaults (field : pyval) (d : pydict) :
  unwrap field = PDict d ->
  lookup "name" d = None ->
  lookup "display_name" d = None ->
  lookup "type" d = None ->
  lookup "description" d = None ->
  lookup "required" d = None ->
  lookup "default" d = None ->
  lookup "legacy_template_name" d = None ->
  parse_field field
  = Ok (AuthConfigField.make "" "" "string" None false None None).
Proof.
  intros Hd Hname Hdisplay Htype Hdescription Hrequired Hdefault Hlegacy.
  unfold parse_field. rewrite Hd. cbn [py_get bind].
  rewrite (lookup_none_get _ _ _ Hname), (lookup_none_get _ _ _ Hdisplay),
    (lookup_none_get _ _ _ Htype), (lookup_none_get _ _ _ Hdescription),
    (lookup_none_get _ _ _ Hrequired), (lookup_none_get _ _ _ Hdefault),
    (lookup_none_get _ _ _ Hlegacy).
  unfold auth_config_field.
  rewrite !as_str_str, !as_opt_str_none, as_bool_bool. reflexivity.
Qed.

(** X18. [get_detailed_toolkit_info] reads six keys of the response and no
    other: two responses that agree on [meta], [slug], [name],
    [composio_managed_auth_schemes], [base_url] and [auth_config_details]
    give the same result. In particular it does not filter on "OAUTH2" and
    ignores [auth_schemes] and the top-level [logo] and [description]. *)
Theorem detailed_info_reads_six_keys
  (one other : ToolkitService) (slug : string) (resp resp' : pyval) (d d' : pydict) :
  toolkits_retrieve (client one) slug = Ok resp ->
  toolkits_retrieve (client other) slug = Ok resp' ->
  response_dict resp = Ok (PDict d) ->
  response_dict resp' = Ok (PDict d') ->
  (forall k,
      In k [ "meta"; "slug"; "name"; "composio_managed_auth_schemes";
             "base_url"; "auth_config_details" ] ->
      lookup k d = lookup k d') ->
  get_detailed_toolkit_info one slug = get_detailed_toolkit_info other slug.
Proof.
  intros Hone Hother Hd Hd' Hkeys.
  unfold get_detailed_toolkit_info, get_detailed_toolkit_info_body.
  rewrite Hone, Hother. cbn [bind]. rewrite Hd, Hd'. cbn [bind].
  unfold parse_toolkit_dict. cbn [py_get bind]. unfold dict_get.
  rewrite (Hkeys "meta"), (Hkeys "slug"), (Hkeys "name"),
    (Hkeys "composio_managed_auth_schemes"), (Hkeys "base_url"),
    (Hkeys "auth_config_details"); [reflexivity | | | | | |];
    cbn [In]; tauto.
Qed.

(** X19. [get_toolkit_icon] is shape-agnostic: for a toolkit payload
    whose [meta] logo is plain data (or which has no [meta] mapping at
    all), the icon is the same whether the payload arrives as nested dicts
    or as nested objects. *)
Theorem icon_same_on_both_shapes
  (mappings objects : ToolkitService) (slug : string) (toolkit : payload) :
  toolkits_retrieve (client mappings) slug = Ok (as_mappings toolkit) ->
  toolkits_retrieve (client objects) slug = Ok (as_objects toolkit) ->
  logo_plain toolkit = true ->
  get_toolkit_icon mappings slug = get_toolkit_icon objects slug.
Proof.
  intros Hm Ho Hplain. destruct toolkit as [| | | | |d]; try discriminate.
  cbn [logo_plain] in Hplain.
  unfold get_toolkit_icon, get_toolkit_icon_body. rewrite Hm, Ho. cbn [bind].
  change (as_mappings (JMap d)) with (PDict (mappings_of d)).
  change (as_objects (JMap d)) with (PObj (objects_of d)).
  cbn [response_dict]. rewrite dict_of_dict. cbn [bind py_get].
  unfold dict_get at 1. unfold dict_get at 1.
  rewrite lookup_mappings_of, lookup_objects_of.
  destruct (jlookup "meta" d) as [[| | | | |md]|]; cbn [option_map]; try reflexivity.
  change (as_mappings (JMap md)) with (PDict (mappings_of md)).
  change (as_objects (JMap md)) with (PObj (objects_of md)).
  cbn [meta_get]. now rewrite (plain_at_get _ _ PNone Hplain).
Qed.

End DetailFields.

Lemma field_defaults_witness :
  parse_field (RT := reference_runtime) (PDict [("displayName", PStr "Client ID")])
  = Ok (AuthConfigField.make "" "" "string" None false None None).
Proof.
  apply (@field_defaults reference_runtime
           (PDict [("displayName", PStr "Client ID")])
           [("displayName", PStr "Client ID")]); reflexivity.
Defined.

(** Google Drive with and without its declared schemes and top-level
    logo: the same detail. *)
Lemma detailed_info_reads_six_keys_witness :
  get_detailed_toolkit_info (RT := reference_runtime) drive_service "googledrive"
  = get_detailed_toolkit_info (RT := reference_runtime)
      (constant_service (Raise TypeError)
         (Ok (PDict [ ("slug", PStr "googledrive");
                      ("name", PStr "Google Drive");
                      ("auth_schemes", PList [PStr "BASIC"]);
                      ("composio_managed_auth_schemes", PList [PStr "OAUTH2"]);
                      ("meta", PDict [ ("categories",
                                        PList [PDict [("id", PStr "storage");
                                                      ("name", PStr "File Storage")]]) ]) ])))
      "googledrive".
Proof.
  eapply (@detailed_info_reads_six_keys reference_runtime); try reflexivity.
  intros k Hk. cbn [In] in Hk.
  repeat (destruct Hk as [<- | Hk]; [reflexivity |]). destruct Hk.
Defined.

Lemma icon_same_on_both_shapes_witness :
  get_toolkit_icon (RT := reference_runtime)
    (constant_service (Raise TypeError) (Ok (as_mappings gmail_raw))) "gmail"
  = get_toolkit_icon (RT := reference_runtime)
      (constant_service (Raise TypeError) (Ok (as_objects gmail_raw))) "gmail".
Proof.
  apply (@icon_same_on_both_shapes reference_runtime
           (constant_service (Raise TypeError) (Ok (as_mappings gmail_raw)))
           (constant_service (Raise TypeError) (Ok (as_objects gmail_raw)))
           "gmail" gmail_raw); reflexivity.
Defined.

(** ** Details: the initiation fields *)

Lemma lookup_In (k : string) (d : pydict) (v : pyval) :
  lookup k d = Some v -> In (k, v) d.
Proof.
  induction d as [|[k' v'] d IH]; cbn [lookup]; [discriminate |].
  destruct (String.eqb_spec k k') as [<- | Hne].
  - intros H. inversion H. now left.
  - intros H. right. now apply IH.
Qed.

Lemma In_dict_set_same {V : Type} (k : string) (v : V) (d : list (string * V)) :
  In (k, v) (dict_set k v d).
Proof.
  induction d as [|[k0 v0] d IH]; cbn [dict_set]; [now left |].
  destruct (String.eqb k k0); [now left | now right].
Qed.

Lemma In_dict_set_other {V : Type} (k k' : string) (v v' : V) (d : list (string * V)) :
  k' <> k -> In (k, v) d -> In (k, v) (dict_set k' v' d).
Proof.
  intros Hne. induction d as [|[k0 v0] d IH]; [intros [] |].
  cbn [dict_set]. destruct (String.eqb_spec k' k0) as [<- | Hne0].
  - intros [H | H]; [inversion H; congruence | now right].
  - intros [H | H]; [now left | right; now apply IH].
Qed.

(** [v or {}] and [v.__dict__] agree on a truthy [v]. *)
Lemma dict_or_empty_truthy (v : pyval) : truthy v = true -> dict_or_empty v = unwrap v.
Proof.
  intros H. destruct v; cbn [dict_or_empty unwrap]; try reflexivity;
    now rewrite H.
Qed.

Section Initiation.

Context {RT : Runtime}.
Variable self : ToolkitService.

Local Abbreviation group_step :=
  (fun (auth_fields : list (string * list (string * list AuthConfigField.t)))
       (entry : string * pyval) =>
     by_level <- parse_levels (dict_or_empty (snd entry)) ;;
     Ok (dict_set (fst entry) by_level auth_fields)).

Lemma groups_keep (k : string) (levels : list (string * list AuthConfigField.t))
  (entries : pydict) (acc out : list (string * list (string * list AuthConfigField.t))) :
  for_each group_step entries acc = Ok out ->
  (forall entry, In entry entries -> fst entry <> k) ->
  In (k, levels) acc -> In (k, levels) out.
Proof.
  revert acc. induction entries as [|entry entries IH]; intros acc H Hne Hin.
  - cbn [for_each] in H. injection H as <-. exact Hin.
  - cbn [for_each] in H. bind_inv H as acc' Hstep. bind_inv Hstep as by_level Hlevels.
    inversion Hstep; subst acc'; clear Hstep.
    apply (IH _ H); [intros e He; apply Hne; now right |].
    apply In_dict_set_other; [apply Hne; now left | exact Hin].
Qed.

Lemma groups_hold (k : string) (obj : pyval)
  (levels : list (string * list AuthConfigField.t))
  (entries : pydict) (acc out : list (string * list (string * list AuthConfigField.t))) :
  for_each group_step entries acc = Ok out ->
  NoDup (map fst entries) ->
  In (k, obj) entries ->
  parse_levels (dict_or_empty obj) = Ok levels ->
  In (k, levels) out.
Proof.
  revert acc. induction entries as [|entry entries IH]; intros acc H Hnodup Hin Hlevels;
    [destruct Hin |].
  cbn [for_each] in H. bind_inv H as acc' Hstep. bind_inv Hstep as by_level Hby.
  inversion Hstep; subst acc'; clear Hstep.
  cbn [map] in Hnodup. inversion Hnodup as [|? ? Hfresh Hrest]; subst.
  destruct Hin as [-> | Hin].
  - cbn [fst snd] in *. rewrite Hlevels in Hby. inversion Hby; subst by_level.
    apply (groups_keep _ _ _ H); [| apply In_dict_set_same].
    intros e He Heq. apply Hfresh. rewrite <- Heq. now apply in_map.
  - exact (IH _ H Hrest Hin Hlevels).
Qed.

Lemma find_initiation_source (configs : list pyval)
  (group : list (string * list AuthConfigField.t)) :
  find_initiation configs = Ok (Some group) ->
  exists config fields obj,
    In config configs
    /\ config_fields config = Ok (PDict fields)
    /\ lookup "connected_account_initiation" fields = Some obj
    /\ truthy obj = true
    /\ parse_levels (unwrap obj) = Ok group.
Proof.
  induction configs as [|config configs IH]; cbn [find_initiation]; [discriminate |].
  intros H. bind_inv H as fields_dict Hfields. bind_inv H as obj Hobj.
  destruct (py_get_Ok _ _ _ Hobj) as (fields & -> & Hget).
  destruct (truthy obj) eqn:Htruthy.
  - bind_inv H as by_level Hlevels. inversion H; subst by_level; clear H.
    exists config, fields, obj. split; [now left |]. split; [exact Hfields |].
    split; [| split; [exact Htruthy | exact Hlevels]].
    unfold dict_get in Hget.
    destruct (lookup "connected_account_initiation" fields) as [v|];
      [now subst | subst obj; discriminate].
  - destruct (IH H) as (config' & fields' & obj' & Hin & Hrest).
    exists config', fields', obj'. split; [now right | exact Hrest].
Qed.

Lemma parse_config_fields (config : pyval) (fields : pydict) (parsed : AuthConfigDetails.t) :
  parse_config config = Ok parsed ->
  config_fields config = Ok (PDict fields) ->
  for_each group_step fields [] = Ok (AuthConfigDetails.fields parsed).
Proof.
  unfold parse_config. intros H Hfields. rewrite Hfields in H. cbn [bind py_items] in H.
  bind_inv H as auth_fields Hauth. bind_inv H as name Hname. bind_inv H as mode Hmode.
  bind_inv H as name' Hname'. bind_inv H as mode' Hmode'.
  inversion H; subst parsed. exact Hauth.
Qed.

(** X20. When the [fields] of the auth configs of the response have
    distinct keys (as every dict has), the connected-account initiation
    fields of a detail are never made up: they are the
    [connected_account_initiation] group of one of the auth configs of
    that same detail. *)
Theorem initiation_fields_belong_to_a_config
  (slug : string) (resp : pyval) (d : pydict) (configs : list pyval)
  (detail : DetailedToolkitInfo.t) (group : list (string * list AuthConfigField.t)) :
  toolkits_retrieve (client self) slug = Ok resp ->
  response_dict resp = Ok (PDict d) ->
  py_iter (dict_get d "auth_config_details" (PList [])) = Ok configs ->
  (forall config fields,
      In config configs -> config_fields config = Ok (PDict fields) ->
      NoDup (map fst fields)) ->
  get_detailed_toolkit_info self slug = Ok (Some detail) ->
  DetailedToolkitInfo.connected_account_initiation_fields detail = Some group ->
  exists config,
    In config (DetailedToolkitInfo.auth_config_details detail)
    /\ In ("connected_account_initiation", group) (AuthConfigDetails.fields config).
Proof.
  intros Hresp Hdict Hconfigs Hdistinct H Hgroup.
  apply get_detailed_Some_body, detailed_info_parts in H.
  destruct H as (resp' & d' & cats & configs' & Hresp' & Hdict' & _ & _ & _ & _
                 & Hconfigs' & HF & Hinit).
  rewrite Hresp in Hresp'. inversion Hresp'; subst resp'.
  rewrite Hdict in Hdict'. inversion Hdict'; subst d'.
  rewrite Hconfigs in Hconfigs'. inversion Hconfigs'; subst configs'.
  rewrite Hgroup in Hinit. apply find_initiation_source in Hinit.
  destruct Hinit as (config & fields & obj & Hin & Hfields & Hlookup & Htruthy & Hlevels).
  destruct (@Forall2_In_l _ _ _ _ _ _ HF Hin) as (parsed & Hparsed & Hparse).
  exists parsed. split; [exact Hparsed |].
  apply (@groups_hold "connected_account_initiation" obj group fields [] _
           (parse_config_fields _ Hparse Hfields)).
  - exact (Hdistinct _ _ Hin Hfields).
  - now apply lookup_In.
  - now rewrite (dict_or_empty_truthy _ Htruthy).
Qed.

End Initiation.

Lemma initiation_fields_belong_to_a_config_witness :
  exists detail group config,
    get_detailed_toolkit_info (RT := reference_runtime)
      (constant_service (Raise TypeError) (Ok (as_objects zendesk_raw))) "zendesk"
    = Ok (Some detail)
    /\ DetailedToolkitInfo.connected_account_initiation_fields detail = Some group
    /\ In config (DetailedToolkitInfo.auth_config_details detail)
    /\ In ("connected_account_initiation", group) (AuthConfigDetails.fields config).
Proof.
  destruct (get_detailed_toolkit_info (RT := reference_runtime)
              (constant_service (Raise TypeError) (Ok (as_objects zendesk_raw)))
              "zendesk") as [[detail|]|e] eqn:Hget; try discriminate Hget.
  destruct (DetailedToolkitInfo.connected_account_initiation_fields detail)
    as [group|] eqn:Hgroup.
  - destruct (@initiation_fields_belong_to_a_config reference_runtime
                (constant_service (Raise TypeError) (Ok (as_objects zendesk_raw)))
                "zendesk" _ _ _ detail group eq_refl eq_refl eq_refl)
      as (config & Hc & Hg); [| exact Hget | exact Hgroup |].
    + intros config fields [<- | []] Hfields. inversion Hfields.
      repeat (constructor; [cbn [In]; intuition discriminate |]). constructor.
    + exists detail, group, config. repeat split; assumption.
  - exfalso. inversion Hget; subst detail. discriminate Hgroup.
Defined.
